(** * Model resolution and caching: [sd_task/inference_task_runner/download_model.py]

    A shallow embedding of the model download module and the properties of
    its specification.  Python [str] values are represented by Rocq strings
    holding their UTF-8 encoding, so [s.encode('utf-8')] is the list of the
    bytes of the representation. *)

From Stdlib Require Import ZArith Lia Ascii.
From stdpp Require Import gmap strings list pretty.

Local Open Scope Z_scope.

(** ** [hashlib.sha256]: SHA-256 of FIPS 180-4 on 32-bit words held in [Z] *)

Module hashlib.

Definition add32 (x y : Z) : Z := (x + y) mod 0x100000000.

Definition rotr (n x : Z) : Z :=
  Z.lor (Z.shiftr x n) (Z.shiftl x (32 - n) mod 0x100000000).

Definition not32 (x : Z) : Z := Z.lxor x 0xffffffff.

Definition ch (x y z : Z) : Z := Z.lxor (Z.land x y) (Z.land (not32 x) z).

Definition maj (x y z : Z) : Z :=
  Z.lxor (Z.lxor (Z.land x y) (Z.land x z)) (Z.land y z).

Definition bsig0 (x : Z) : Z := Z.lxor (Z.lxor (rotr 2 x) (rotr 13 x)) (rotr 22 x).
Definition bsig1 (x : Z) : Z := Z.lxor (Z.lxor (rotr 6 x) (rotr 11 x)) (rotr 25 x).
Definition ssig0 (x : Z) : Z := Z.lxor (Z.lxor (rotr 7 x) (rotr 18 x)) (Z.shiftr x 3).
Definition ssig1 (x : Z) : Z := Z.lxor (Z.lxor (rotr 17 x) (rotr 19 x)) (Z.shiftr x 10).

(** The round constants are the first 32 bits of the fractional parts of
    the cube roots of the first 64 primes (FIPS 180-4, section 4.2.2). *)
Definition is_prime (n : Z) : bool :=
  (2 <=? n) && forallb (fun d => negb (n mod d =? 0) || (n <? d * d)) (seqZ 2 (n - 2)).

Definition primes64 : list Z := List.filter is_prime (seqZ 2 310).

(** The largest [r] below [2 ^ bits] with [r ^ k <= n]. *)
Fixpoint int_root (k : Z) (bits : nat) (n r : Z) : Z :=
  match bits with
  | O => r
  | S b =>
      let c := r + 2 ^ Z.of_nat b in
      int_root k b n (if c ^ k <=? n then c else r)
  end.

Definition frac32_root (k p : Z) : Z :=
  int_root k 48 (p * 2 ^ (32 * k)) 0 mod 0x100000000.

Definition K : list Z := Eval vm_compute in map (frac32_root 3) primes64.

(** The eight working variables (and the running hash value). *)
Record hstate := HState {
  va : Z; vb : Z; vc : Z; vd : Z; ve : Z; vf : Z; vg : Z; vh : Z }.

Definition H0 : hstate :=
  HState 0x6a09e667 0xbb67ae85 0x3c6ef372 0xa54ff53a
         0x510e527f 0x9b05688c 0x1f83d9ab 0x5be0cd19.

Definition round (s : hstate) (kw : Z * Z) : hstate :=
  let t1 := add32 (add32 (add32 (vh s) (bsig1 (ve s)))
                         (add32 (ch (ve s) (vf s) (vg s)) (fst kw))) (snd kw) in
  let t2 := add32 (bsig0 (va s)) (maj (va s) (vb s) (vc s)) in
  HState (add32 t1 t2) (va s) (vb s) (vc s) (add32 (vd s) t1) (ve s) (vf s) (vg s).

(** Message schedule: the 16 words of a block extended by [n] more words. *)
Fixpoint extend (n : nat) (w : list Z) : list Z :=
  match n with
  | O => w
  | S n' =>
      let g (i : nat) := nth (length w - i)%nat w 0 in
      extend n' (w ++ [add32 (add32 (ssig1 (g 2%nat)) (g 7%nat))
                             (add32 (ssig0 (g 15%nat)) (g 16%nat))])
  end.

Definition compress (s : hstate) (block : list Z) : hstate :=
  let t := fold_left round (zip K (extend 48 block)) s in
  HState (add32 (va s) (va t)) (add32 (vb s) (vb t)) (add32 (vc s) (vc t))
         (add32 (vd s) (vd t)) (add32 (ve s) (ve t)) (add32 (vf s) (vf t))
         (add32 (vg s) (vg t)) (add32 (vh s) (vh t)).

(** Big-endian bytes of the low [8 * n] bits of [x]. *)
Fixpoint be_bytes (n : nat) (x : Z) : list Z :=
  match n with
  | O => []
  | S n' => (Z.shiftr x (8 * Z.of_nat n')) mod 256 :: be_bytes n' x
  end.

Definition pad (msg : list Z) : list Z :=
  let len := Z.of_nat (length msg) in
  msg ++ [0x80] ++ repeat 0 (Z.to_nat ((55 - len) mod 64)) ++ be_bytes 8 (8 * len).

Fixpoint words (bs : list Z) : list Z :=
  match bs with
  | b0 :: b1 :: b2 :: b3 :: r =>
      (Z.shiftl b0 24 + Z.shiftl b1 16 + Z.shiftl b2 8 + b3) :: words r
  | _ => []
  end.

Fixpoint blocks (fuel : nat) (ws : list Z) : list (list Z) :=
  match fuel with
  | O => []
  | S fuel' =>
      match ws with
      | [] => []
      | _ => take 16 ws :: blocks fuel' (drop 16 ws)
      end
  end.

Definition digest_state (msg : list Z) : hstate :=
  let ws := words (pad msg) in
  fold_left compress (blocks (length ws) ws) H0.

Definition hexdigits : list ascii :=
  [ "0"; "1"; "2"; "3"; "4"; "5"; "6"; "7";
    "8"; "9"; "a"; "b"; "c"; "d"; "e"; "f" ]%char.

Definition hexchar (x : Z) : ascii := nth (Z.to_nat (x mod 16)) hexdigits "0"%char.

(** The eight lower-case hexadecimal digits of a 32-bit word. *)
Definition hex32 (x : Z) : list ascii :=
  map (fun i : Z => hexchar (Z.shiftr x (4 * i))) [7; 6; 5; 4; 3; 2; 1; 0].

Definition hex_of_state (s : hstate) : list ascii :=
  hex32 (va s) ++ hex32 (vb s) ++ hex32 (vc s) ++ hex32 (vd s) ++
  hex32 (ve s) ++ hex32 (vf s) ++ hex32 (vg s) ++ hex32 (vh s).

(** [hashlib.sha256(msg).hexdigest()] *)
Definition sha256_hexdigest (msg : list Z) : string :=
  String.string_of_list_ascii (hex_of_state (digest_state msg)).

End hashlib.

(** [str.encode('utf-8')] on the UTF-8 representation of a [str]. *)
Fixpoint encode_utf8 (s : string) : list Z :=
  match s with
  | EmptyString => []
  | String c s' => Z.of_N (N_of_ascii c) :: encode_utf8 s'
  end.

(** ** [os.path.join] on POSIX ([posixpath.join]) for two components *)

Module posixpath.

Definition startswith_sep (s : string) : bool :=
  match s with
  | String c _ => Ascii.eqb c "/"
  | EmptyString => false
  end.

Fixpoint endswith_sep (s : string) : bool :=
  match s with
  | EmptyString => false
  | String c EmptyString => Ascii.eqb c "/"
  | String _ s' => endswith_sep s'
  end.

Definition join (a b : string) : string :=
  if startswith_sep b then b
  else if String.eqb a "" || endswith_sep a then a +:+ b
  else a +:+ "/" +:+ b.

End posixpath.

(** ** Python values, exceptions and the outside world *)

(** Modelled from the spec: the proxy policy record [ProxyConfig] of
    [sd_task.config], which is not part of the sources at hand:
    [{host: string, port: integer, username: string, password: string}]. *)
Record ProxyConfig := {
  host : string;
  port : Z;
  username : string;
  password : string }.

(** The values that travel through the untyped keyword-argument bag. *)
Inductive pyval :=
| PyNone
| PyStr (s : string)
| PyProxy (c : ProxyConfig).

(** [ProxyConfig | None] as a Python value. *)
Definition policy_val (p : option ProxyConfig) : pyval :=
  match p with
  | Some c => PyProxy c
  | None => PyNone
  end.

(** The exceptions that travel through the module.  All but the last two
    are of class [Exception]; [KeyboardInterrupt] and [SystemExit] derive
    from [BaseException] only. *)
Inductive exn :=
| KeyError (key : string)
| AttributeError (type_name attr : string)
| TypeError (what : string)
| ValueError (what : string)
| FileExistsError (path : string)
| FileNotFoundError (path : string)
| IsADirectoryError (path : string)
| OSError (what : string)
| HTTPError (what : string)
| LoaderError (what : string)
| KeyboardInterrupt
| SystemExit (code : Z).

(** [isinstance(e, Exception)] *)
Definition is_Exception (e : exn) : bool :=
  match e with
  | KeyboardInterrupt | SystemExit _ => false
  | _ => true
  end.

Inductive outcome (A : Type) :=
| Ok (a : A)
| Raise (e : exn).
Arguments Ok {A} a.
Arguments Raise {A} e.

(** [urllib3.make_headers(proxy_basic_auth=...)], kept symbolic. *)
Inductive headers :=
| ProxyBasicAuth (userpass : string).

(** The two urllib3 connection managers the module builds. *)
Inductive client :=
| PoolManager (num_pools : Z)
| ProxyManager (proxy_url : string) (proxy_headers : option headers) (num_pools : Z).

(** The loaders handed to the dispatcher by [check_and_prepare_models]. *)
Inductive loader_id :=
| ModelMixin_from_pretrained
| LoraLoaderMixin_lora_state_dict
| load_textual_inversion_state_dicts.

Inductive torch_dtype :=
| float16
| float32.

(** The [call_args] dictionary of [check_and_download_hf_model]. *)
Record call_args := {
  arg_proxy : option (gmap string string);
  arg_cache_dir : pyval;
  arg_torch_dtype : torch_dtype;
  arg_resume_download : bool }.

Inductive node :=
| Dir
| File (content : list Z).

Inductive event :=
| EvPrint (s : string)
| EvMkdir (path : string) (mode : Z)
| EvClient (c : client)
| EvRequest (c : client) (method url : string)
| EvOpen (path : string)
| EvWrite (path : string) (chunk : list Z)
| EvRemove (path : string)
| EvLoad (l : loader_id) (name : string) (args : call_args).

(** The filesystem as a finite map from path strings to nodes, and the
    effects performed so far. *)
Record world := World {
  fs : gmap string node;
  trace : list event }.

(** A streamed HTTP response: the [content-length] header, the chunks that
    [resp.stream(1024)] yields, and the exception (if any) that interrupts
    the copy once those chunks have been written: a fault of the
    connection, or an interrupt of the process ([KeyboardInterrupt],
    [SystemExit]). *)
Record response := {
  content_length : option string;
  chunks : list (list Z);
  stream_fault : option exn }.

(** What the module does not decide itself: the URL validator, [int] on a
    header, the network, operating-system faults and the external loaders.
    Each may depend on the effects performed so far. *)
Record Env := {
  validators_url : string -> bool;
  builtin_int : string -> option Z;
  manager_fault : list event -> client -> option exn;
  http_request : list event -> client -> string -> string -> exn + response;
  mkdir_fault : list event -> string -> option exn;
  open_fault : list event -> string -> option exn;
  remove_fault : list event -> string -> option exn;
  run_loader : loader_id -> string -> call_args -> list event ->
               gmap string node -> gmap string node * option exn }.

(** ** A state and exception monad *)

Definition M (S A : Type) : Type := S -> S * outcome A.

Definition ret {S A} (a : A) : M S A := fun s => (s, Ok a).

Definition raise {S A} (e : exn) : M S A := fun s => (s, Raise e).

Definition bind {S A B} (m : M S A) (k : A -> M S B) : M S B :=
  fun s =>
    match m s with
    | (s', Ok a) => k a s'
    | (s', Raise e) => (s', Raise e)
    end.

(** [try: body except Exception as e: handler e]: the clause catches the
    exceptions of class [Exception]; any other passes it by. *)
Definition try_except {S A} (body : M S A) (handler : exn -> M S A) : M S A :=
  fun s =>
    match body s with
    | (s', Ok a) => (s', Ok a)
    | (s', Raise e) => if is_Exception e then handler e s' else (s', Raise e)
    end.

Definition of_outcome {S A} (o : outcome A) : M S A := fun s => (s, o).

Notation "'do' x <- c1 ; c2" := (bind c1 (fun x => c2))
  (at level 10, x name, c1 at level 100, c2 at level 200).
Notation "'exec' c1 ; c2" := (bind c1 (fun _ => c2))
  (at level 10, c1 at level 100, c2 at level 200).

(** ** Operating-system and library primitives *)

Definition isdir (m : gmap string node) (p : string) : bool :=
  match m !! p with
  | Some Dir => true
  | _ => false
  end.

Definition isfile (m : gmap string node) (p : string) : bool :=
  match m !! p with
  | Some (File _) => true
  | _ => false
  end.

Definition emit (ev : event) : M world unit :=
  fun w => (World (fs w) (trace w ++ [ev]), Ok tt).

Definition print (s : string) : M world unit := emit (EvPrint s).

Definition os_path_isdir (p : string) : M world bool :=
  fun w => (w, Ok (isdir (fs w) p)).

Definition os_path_isfile (p : string) : M world bool :=
  fun w => (w, Ok (isfile (fs w) p)).

(** [os.path.join(a, b)]: a [TypeError] unless [a] is a string. *)
Definition os_path_join (a : pyval) (b : string) : outcome string :=
  match a with
  | PyStr r => Ok (posixpath.join r b)
  | PyNone => Raise (TypeError "expected str, bytes or os.PathLike object, not NoneType")
  | PyProxy _ => Raise (TypeError "expected str, bytes or os.PathLike object, not ProxyConfig")
  end.

Definition os_mkdir (env : Env) (p : string) (mode : Z) : M world unit :=
  fun w =>
    match fs w !! p with
    | Some _ => (w, Raise (FileExistsError p))
    | None =>
        match mkdir_fault env (trace w) p with
        | Some e => (w, Raise e)
        | None => (World (<[p := Dir]> (fs w)) (trace w ++ [EvMkdir p mode]), Ok tt)
        end
    end.

(** [open(p, "wb")]: creates or truncates the file. *)
Definition open_wb (env : Env) (p : string) : M world unit :=
  fun w =>
    match fs w !! p with
    | Some Dir => (w, Raise (IsADirectoryError p))
    | _ =>
        match open_fault env (trace w) p with
        | Some e => (w, Raise e)
        | None => (World (<[p := File []]> (fs w)) (trace w ++ [EvOpen p]), Ok tt)
        end
    end.

Definition append_bytes (chunk : list Z) (n : node) : node :=
  match n with
  | File c => File (c ++ chunk)
  | Dir => Dir
  end.

Definition file_write (p : string) (chunk : list Z) : M world unit :=
  fun w => (World (alter (append_bytes chunk) p (fs w)) (trace w ++ [EvWrite p chunk]), Ok tt).

(** [os.remove(p)]: the operating system may refuse to unlink a file that
    is there. *)
Definition os_remove (env : Env) (p : string) : M world unit :=
  fun w =>
    match fs w !! p with
    | Some (File _) =>
        match remove_fault env (trace w) p with
        | Some e => (w, Raise e)
        | None => (World (delete p (fs w)) (trace w ++ [EvRemove p]), Ok tt)
        end
    | Some Dir => (w, Raise (IsADirectoryError p))
    | None => (w, Raise (FileNotFoundError p))
    end.

(** Reading an attribute of the proxy policy: only a [ProxyConfig] has it. *)
Definition proxy_attrs (proxy : pyval) (attr : string) : outcome ProxyConfig :=
  match proxy with
  | PyProxy c => Ok c
  | PyNone => Raise (AttributeError "NoneType" attr)
  | PyStr _ => Raise (AttributeError "str" attr)
  end.

Definition new_manager (env : Env) (c : client) : M world client :=
  fun w =>
    match manager_fault env (trace w) c with
    | Some e => (w, Raise e)
    | None => (World (fs w) (trace w ++ [EvClient c]), Ok c)
    end.

Definition request (env : Env) (c : client) (method url : string) : M world response :=
  fun w =>
    let w' := World (fs w) (trace w ++ [EvRequest c method url]) in
    match http_request env (trace w) c method url with
    | inl e => (w', Raise e)
    | inr r => (w', Ok r)
    end.

Definition call_loader (env : Env) (l : loader_id) (name : string) (args : call_args)
  : M world unit :=
  fun w =>
    let (m, r) := run_loader env l name args (trace w) (fs w) in
    let w' := World m (trace w ++ [EvLoad l name args]) in
    match r with
    | Some e => (w', Raise e)
    | None => (w', Ok tt)
    end.

(** ** The module: [download_model.py] *)

(** [get_hf_proxy_dict] (lines 156-166). *)
Definition get_hf_proxy_dict (proxy : pyval) : outcome (option (gmap string string)) :=
  match proxy with
  | PyNone => Ok None
  | _ =>
      match proxy_attrs proxy "host" with
      | Raise e => Raise e
      | Ok c =>
          if bool_decide (host c <> "") then
            let proxy_str := host c +:+ ":" +:+ pretty (port c) in
            Ok (Some {[ "https" := proxy_str; "http" := proxy_str ]})
          else Ok None
      end
  end.

(** [check_and_download_hf_model] (lines 136-153). *)
Definition check_and_download_hf_model (env : Env) (model_name : string)
    (loader_fn : loader_id) (hf_cache_dir : pyval) (proxy : pyval) : M world string :=
  exec print ("Check and download the Huggingface model file: " +:+ model_name) ;
  do proxy_dict <- of_outcome (get_hf_proxy_dict proxy) ;
  let call_args := {| arg_proxy := proxy_dict;
                      arg_cache_dir := hf_cache_dir;
                      arg_torch_dtype := float16;
                      arg_resume_download := true |} in
  exec call_loader env loader_fn model_name call_args ;
  ret model_name.

(** The cache location computed at lines 75-80. *)
Definition url_hash (model_name : string) : string :=
  hashlib.sha256_hexdigest (encode_utf8 model_name).

Definition model_folder (external_cache_dir model_name : string) : string :=
  posixpath.join external_cache_dir (url_hash model_name).

Definition model_file (external_cache_dir model_name : string) : string :=
  posixpath.join (model_folder external_cache_dir model_name) "model.safetensors".

Arguments url_hash : simpl never.
Arguments model_folder : simpl never.
Arguments model_file : simpl never.

(** The copy loop of lines 122-124: empty chunks are skipped. *)
Fixpoint write_chunks (path : string) (cs : list (list Z)) : M world unit :=
  match cs with
  | [] => ret tt
  | chunk :: cs' =>
      exec (match chunk with
            | [] => ret tt
            | _ => file_write path chunk
            end) ;
      write_chunks path cs'
  end.

(** The body of the [try] block (lines 98-127). *)
Definition download (env : Env) (model_name folder file : string) (proxy : pyval)
  : M world string :=
  do c <- of_outcome (proxy_attrs proxy "host") ;
  do http <-
    (if bool_decide (host c <> "") then
       let proxy_str := host c +:+ ":" +:+ pretty (port c) in
       exec print ("Download using proxy: " +:+ proxy_str) ;
       let default_headers :=
         if bool_decide (username c <> "") && bool_decide (password c <> "")
         then Some (ProxyBasicAuth (username c +:+ ":" +:+ password c))
         else None in
       new_manager env (ProxyManager proxy_str default_headers 1)
     else new_manager env (PoolManager 1)) ;
  do resp <- request env http "GET" model_name ;
  do total_bytes <-
    (match content_length resp with
     | None => ret None
     | Some s =>
         match builtin_int env s with
         | Some n => ret (Some n)
         | None => raise (ValueError s)
         end
     end) ;
  exec open_wb env file ;
  exec write_chunks file (chunks resp) ;
  exec (match stream_fault resp with
        | Some e => raise e
        | None => ret tt
        end) ;
  ret folder.

(** The body of the [except] clause (lines 129-133). *)
Definition cleanup {A} (env : Env) (file : string) (e : exn) : M world A :=
  do f <- os_path_isfile file ;
  exec (if f then os_remove env file else ret tt) ;
  raise e.

(** Lines 92-133: the download with its failure handler. *)
Definition download_section (env : Env) (model_name folder : string) (proxy : pyval)
  : M world string :=
  let file := posixpath.join folder "model.safetensors" in
  exec print "Model file not cached locally. Start the download..." ;
  try_except (download env model_name folder file proxy) (cleanup env file).

(** [check_and_download_external_model] (lines 67-133). *)
Definition check_and_download_external_model (env : Env) (model_name : string)
    (external_cache_dir : pyval) (proxy : pyval) : M world string :=
  exec print ("Check and download the external model file: " +:+ model_name) ;
  let url_hash := url_hash model_name in
  do folder <- of_outcome (os_path_join external_cache_dir url_hash) ;
  let file := posixpath.join folder "model.safetensors" in
  exec print ("The model file will be saved as: " +:+ file) ;
  do d <- os_path_isdir folder ;
  if d then
    do f <- os_path_isfile file ;
    if f then
      exec print "Found a local cache of the model file. Skip the download" ;
      ret file
    else download_section env model_name folder proxy
  else
    exec os_mkdir env folder 0x1ed (* 0o755 *) ;
    download_section env model_name folder proxy.

(** [kwargs.pop(key)] *)
Definition dict_pop (key : string) (kwargs : gmap string pyval)
  : outcome (pyval * gmap string pyval) :=
  match kwargs !! key with
  | Some v => Ok (v, delete key kwargs)
  | None => Raise (KeyError key)
  end.

(** [check_and_download_model_by_name] (lines 53-64). *)
Definition check_and_download_model_by_name (env : Env) (model_name : string)
    (loader_fn : loader_id) (kwargs : gmap string pyval) : M world string :=
  do p1 <- of_outcome (dict_pop "hf_cache_dir" kwargs) ;
  do p2 <- of_outcome (dict_pop "external_cache_dir" (snd p1)) ;
  do p3 <- of_outcome (dict_pop "proxy" (snd p2)) ;
  let hf_cache_dir := fst p1 in
  let external_cache_dir := fst p2 in
  let proxy := fst p3 in
  if validators_url env model_name then
    check_and_download_external_model env model_name external_cache_dir proxy
  else
    check_and_download_hf_model env model_name loader_fn hf_cache_dir proxy.

Arguments check_and_download_model_by_name : simpl never.

Definition has_key (key : string) (kwargs : gmap string pyval) : bool :=
  match kwargs !! key with
  | Some _ => true
  | None => false
  end.

(** The call [check_and_download_model_by_name(identifier, loader, **kwargs)]
    as lines 18-22, 25-29, 32-36, 39-43 and 46-50 write it.  The two
    positional arguments bind the parameters [model_name] and [loader_fn],
    so a keyword argument of either name is a [TypeError] (got multiple
    values for argument), raised before the body of the callee runs; the
    keyword arguments make up the callee's own [kwargs].  Python's message
    goes on to name the keyword that comes first in the order of the bag,
    which the finite map does not keep. *)
Definition dispatch (env : Env) (identifier : string) (loader : loader_id)
    (kwargs : gmap string pyval) : M world string :=
  if has_key "model_name" kwargs || has_key "loader_fn" kwargs then
    raise (TypeError "check_and_download_model_by_name() got multiple values for argument")
  else check_and_download_model_by_name env identifier loader kwargs.

Arguments dispatch : simpl never.

(** Modelled from the spec: the task argument record [InferenceTaskArgs] of
    [sd_task.inference_task_args.task_args], which is not part of the sources
    at hand: one required model slot (base model) and four optional slots
    (VAE, ControlNet wrapper with a model field, LoRA wrapper with a model
    field, textual inversion).  The wrappers keep their other fields in
    [cn_other] and [lora_other]. *)
Record ControlnetArgs := {
  cn_model : string;
  cn_other : gmap string pyval }.

Record LoraArgs := {
  lora_model : string;
  lora_other : gmap string pyval }.

Record InferenceTaskArgs := {
  base_model : string;
  vae : option string;
  controlnet : option ControlnetArgs;
  lora : option LoraArgs;
  textual_inversion : option string }.

(** The task arguments are one mutable object next to the world. *)
Definition in_world {A} (m : M world A) : M (InferenceTaskArgs * world) A :=
  fun s => let (w', r) := m (snd s) in ((fst s, w'), r).

Definition get_args : M (InferenceTaskArgs * world) InferenceTaskArgs :=
  fun s => (s, Ok (fst s)).

Definition set_base_model (r : string) : M (InferenceTaskArgs * world) unit :=
  fun s =>
    let a := fst s in
    (({| base_model := r; vae := vae a; controlnet := controlnet a;
         lora := lora a; textual_inversion := textual_inversion a |}, snd s), Ok tt).

Definition set_vae (r : string) : M (InferenceTaskArgs * world) unit :=
  fun s =>
    let a := fst s in
    (({| base_model := base_model a; vae := Some r; controlnet := controlnet a;
         lora := lora a; textual_inversion := textual_inversion a |}, snd s), Ok tt).

(** [task_args.controlnet.model = r]: the wrapper is looked up again. *)
Definition set_controlnet_model (r : string) : M (InferenceTaskArgs * world) unit :=
  fun s =>
    let a := fst s in
    match controlnet a with
    | Some c =>
        (({| base_model := base_model a; vae := vae a;
             controlnet := Some {| cn_model := r; cn_other := cn_other c |};
             lora := lora a; textual_inversion := textual_inversion a |}, snd s), Ok tt)
    | None => (s, Raise (AttributeError "NoneType" "model"))
    end.

Definition set_lora_model (r : string) : M (InferenceTaskArgs * world) unit :=
  fun s =>
    let a := fst s in
    match lora a with
    | Some l =>
        (({| base_model := base_model a; vae := vae a; controlnet := controlnet a;
             lora := Some {| lora_model := r; lora_other := lora_other l |};
             textual_inversion := textual_inversion a |}, snd s), Ok tt)
    | None => (s, Raise (AttributeError "NoneType" "model"))
    end.

Definition set_textual_inversion (r : string) : M (InferenceTaskArgs * world) unit :=
  fun s =>
    let a := fst s in
    (({| base_model := base_model a; vae := vae a; controlnet := controlnet a;
         lora := lora a; textual_inversion := Some r |}, snd s), Ok tt).

(** [check_and_prepare_models] (lines 14-50). *)
Definition check_and_prepare_models (env : Env) (kwargs : gmap string pyval)
  : M (InferenceTaskArgs * world) unit :=
  do a <- get_args ;
  do r <- in_world (dispatch env (base_model a) ModelMixin_from_pretrained kwargs) ;
  exec set_base_model r ;
  do a <- get_args ;
  exec (match vae a with
        | Some v =>
            do r <- in_world (dispatch env v ModelMixin_from_pretrained kwargs) ;
            set_vae r
        | None => ret tt
        end) ;
  do a <- get_args ;
  exec (match controlnet a with
        | Some c =>
            do r <- in_world (dispatch env (cn_model c) ModelMixin_from_pretrained kwargs) ;
            set_controlnet_model r
        | None => ret tt
        end) ;
  do a <- get_args ;
  exec (match lora a with
        | Some l =>
            do r <- in_world (dispatch env (lora_model l)
                                LoraLoaderMixin_lora_state_dict kwargs) ;
            set_lora_model r
        | None => ret tt
        end) ;
  do a <- get_args ;
  match textual_inversion a with
  | Some t =>
      do r <- in_world (dispatch env t load_textual_inversion_state_dicts kwargs) ;
      set_textual_inversion r
  | None => ret tt
  end.

(** ** The Model Set Resolver as the specification words it (section 4.6) *)

Inductive slot :=
| base_slot
| vae_slot
| controlnet_slot
| lora_slot
| textual_inversion_slot.

Global Instance slot_eq_dec : EqDecision slot.
Proof. solve_decision. Defined.

Definition slot_order : list slot :=
  [base_slot; vae_slot; controlnet_slot; lora_slot; textual_inversion_slot].

(** The reference a slot holds, [None] when the slot is absent. *)
Definition slot_ref (s : slot) (a : InferenceTaskArgs) : option string :=
  match s with
  | base_slot => Some (base_model a)
  | vae_slot => vae a
  | controlnet_slot => cn_model <$> controlnet a
  | lora_slot => lora_model <$> lora a
  | textual_inversion_slot => textual_inversion a
  end.

Definition slot_store (s : slot) (r : string) : M (InferenceTaskArgs * world) unit :=
  match s with
  | base_slot => set_base_model r
  | vae_slot => set_vae r
  | controlnet_slot => set_controlnet_model r
  | lora_slot => set_lora_model r
  | textual_inversion_slot => set_textual_inversion r
  end.

Definition slot_loader (s : slot) : loader_id :=
  match s with
  | base_slot | vae_slot | controlnet_slot => ModelMixin_from_pretrained
  | lora_slot => LoraLoaderMixin_lora_state_dict
  | textual_inversion_slot => load_textual_inversion_state_dicts
  end.

Definition resolve_slot (env : Env) (kwargs : gmap string pyval) (s : slot)
  : M (InferenceTaskArgs * world) unit :=
  do a <- get_args ;
  match slot_ref s a with
  | Some identifier =>
      do r <- in_world (dispatch env identifier (slot_loader s) kwargs) ;
      slot_store s r
  | None => ret tt
  end.

Fixpoint resolve_all (env : Env) (kwargs : gmap string pyval) (slots : list slot)
  : M (InferenceTaskArgs * world) unit :=
  match slots with
  | [] => ret tt
  | s :: slots' => exec resolve_slot env kwargs s ; resolve_all env kwargs slots'
  end.

(** ** Observations on traces *)

Definition is_request (ev : event) : bool :=
  match ev with
  | EvRequest _ _ _ => true
  | _ => false
  end.

Definition is_network (ev : event) : bool :=
  match ev with
  | EvClient _ | EvRequest _ _ _ => true
  | _ => false
  end.

Definition is_fs_write (ev : event) : bool :=
  match ev with
  | EvMkdir _ _ | EvOpen _ | EvWrite _ _ | EvRemove _ => true
  | _ => false
  end.

Definition is_load (ev : event) : bool :=
  match ev with
  | EvLoad _ _ _ => true
  | _ => false
  end.

Definition is_print (ev : event) : bool :=
  match ev with
  | EvPrint _ => true
  | _ => false
  end.

(** The separator [os.path.join] inserts after a cache root. *)
Definition root_sep (r : string) : string :=
  if String.eqb r "" || posixpath.endswith_sep r then "" else "/".

Definition is_lower_hex (c : ascii) : bool :=
  let n := N_of_ascii c in
  ((48 <=? n) && (n <=? 57) || (97 <=? n) && (n <=? 102))%N.

Definition all_hex (s : string) : Prop :=
  Forall (fun c => is_lower_hex c = true) (String.list_ascii_of_string s).

(** ** Sample environments, used to run the model on concrete inputs *)

Module Sample.

Definition looks_like_url (s : string) : bool :=
  String.prefix "http://" s || String.prefix "https://" s.

Definition digit_val (c : ascii) : option Z :=
  let n := Z.of_N (N_of_ascii c) in
  if (48 <=? n) && (n <=? 57) then Some (n - 48) else None.

Fixpoint parse_digits (acc : Z) (s : string) : option Z :=
  match s with
  | EmptyString => Some acc
  | String c s' =>
      match digit_val c with
      | Some d => parse_digits (10 * acc + d) s'
      | None => None
      end
  end.

Definition parse_decimal (s : string) : option Z :=
  match s with
  | EmptyString => None
  | _ => parse_digits 0 s
  end.

Definition body (fault : option exn) : response :=
  {| content_length := Some "6";
     chunks := [[1; 2; 3]; []; [4; 5; 6]];
     stream_fault := fault |}.

(** A network that answers every request with [body fault]. *)
Definition net (fault : option exn) (loader_fault : option exn) : Env :=
  {| validators_url := looks_like_url;
     builtin_int := parse_decimal;
     manager_fault := fun _ _ => None;
     http_request := fun _ _ _ _ => inr (body fault);
     mkdir_fault := fun _ _ => None;
     open_fault := fun _ _ => None;
     remove_fault := fun _ _ => None;
     run_loader := fun _ _ _ _ m => (m, loader_fault) |}.

Definition quiet : Env := net None None.

Definition broken_stream : Env := net (Some (HTTPError "connection reset")) None.

Definition broken_loader : Env := net None (Some (LoaderError "repository not found")).

(** A response of 2048 bytes cut short by [fault] after three of them. *)
Definition cut_short (fault : exn) : response :=
  {| content_length := Some "2048";
     chunks := [[1; 2; 3]];
     stream_fault := Some fault |}.

(** The process is interrupted (Ctrl-C) while the response is streamed. *)
Definition interrupted : Env :=
  {| validators_url := looks_like_url;
     builtin_int := parse_decimal;
     manager_fault := fun _ _ => None;
     http_request := fun _ _ _ _ => inr (cut_short KeyboardInterrupt);
     mkdir_fault := fun _ _ => None;
     open_fault := fun _ _ => None;
     remove_fault := fun _ _ => None;
     run_loader := fun _ _ _ _ m => (m, None) |}.


Definition url : string := "https://example.com/model.bin".

Definition digest : string :=
  "c38a92a83d136b04abfbe6c57afd9ce3e6b539f90e82bf2a9ebc634e549a6f19".

Definition folder : string := "/cache/" +:+ digest.

Definition file : string := folder +:+ "/model.safetensors".

Definition proxy_cfg : ProxyConfig :=
  {| host := "http://10.0.0.1"; port := 8080; username := "u"; password := "p" |}.

Definition empty_world : world := World {[ "/cache" := Dir ]} [].

Definition cached_world : world :=
  World {[ "/cache" := Dir; folder := Dir; file := File [1; 2; 3; 4; 5; 6] ]} [].

Definition stale_world : world :=
  World {[ "/cache" := Dir; folder := Dir ]} [].

Definition full_kwargs : gmap string pyval :=
  {[ "hf_cache_dir" := PyStr "/hf";
     "external_cache_dir" := PyStr "/cache";
     "proxy" := PyNone ]}.

Definition proxied_kwargs : gmap string pyval :=
  {[ "hf_cache_dir" := PyStr "/hf";
     "external_cache_dir" := PyStr "/cache";
     "proxy" := PyProxy proxy_cfg ]}.

(** Keyword arguments without the HF cache directory. *)
Definition partial_kwargs : gmap string pyval :=
  {[ "external_cache_dir" := PyStr "/cache"; "proxy" := PyNone ]}.

(** Keyword arguments one of which is named like the first parameter of
    the dispatcher. *)
Definition clashing_kwargs : gmap string pyval :=
  <[ "model_name" := PyStr "org/other" ]> full_kwargs.

Definition task : InferenceTaskArgs :=
  {| base_model := "runwayml/stable-diffusion-v1-5";
     vae := Some url;
     controlnet := None;
     lora := Some {| lora_model := "org/lora"; lora_other := {[ "weight" := PyStr "0.8" ]} |};
     textual_inversion := None |}.

(** A policy that is present but names no proxy host. *)
Definition no_proxy_cfg : ProxyConfig :=
  {| host := ""; port := 0; username := ""; password := "" |}.

Definition base_only : InferenceTaskArgs :=
  {| base_model := "runwayml/stable-diffusion-v1-5";
     vae := None; controlnet := None; lora := None; textual_inversion := None |}.

(** The response of the scenario of section 8: 2048 zero bytes. *)
Definition zeros : Env :=
  {| validators_url := looks_like_url;
     builtin_int := parse_decimal;
     manager_fault := fun _ _ => None;
     http_request := fun _ _ _ _ =>
       inr {| content_length := Some "2048";
              chunks := [repeat 0 1024; repeat 0 1024];
              stream_fault := None |};
     mkdir_fault := fun _ _ => None;
     open_fault := fun _ _ => None;
     remove_fault := fun _ _ => None;
     run_loader := fun _ _ _ _ m => (m, None) |}.

(** A server whose [content-length] header is not a number. *)
Definition bad_header : Env :=
  {| validators_url := looks_like_url;
     builtin_int := parse_decimal;
     manager_fault := fun _ _ => None;
     http_request := fun _ _ _ _ =>
       inr {| content_length := Some "12 bytes";
              chunks := [[1; 2; 3]];
              stream_fault := None |};
     mkdir_fault := fun _ _ => None;
     open_fault := fun _ _ => None;
     remove_fault := fun _ _ => None;
     run_loader := fun _ _ _ _ m => (m, None) |}.

(** A regular file sits where the cache directory should be. *)
Definition blocked_world : world :=
  World {[ "/cache" := Dir; folder := File [7] ]} [].

(** A directory sits where the artifact file should be. *)
Definition occupied_world : world :=
  World {[ "/cache" := Dir; folder := Dir; file := Dir ]} [].

End Sample.

(** The world once lines 73 and 82 have printed their two messages. *)
Definition after_banner (r u : string) (w : world) : world :=
  World (fs w)
        ((trace w ++ [EvPrint ("Check and download the external model file: " +:+ u)])
           ++ [EvPrint ("The model file will be saved as: " +:+ model_file r u)]).

(** The world once the handler of lines 129-131 has removed the file, if it
    is there. *)
Definition cleaned (file : string) (w : world) : world :=
  if isfile (fs w) file
  then World (delete file (fs w)) (trace w ++ [EvRemove file])
  else w.

(** What the [except Exception] clause of lines 128-133 makes of an
    exception [e] that the [try] block raised in world [w]: an exception
    outside class [Exception] passes by; when the file is there and the
    operating system refuses to remove it, the error of [os.remove] is
    raised in place of [e]; otherwise the file is removed, if it is there,
    and [e] is raised again. *)
Definition handled {A} (env : Env) (file : string) (e : exn) (w : world)
  : world * outcome A :=
  if is_Exception e then
    if isfile (fs w) file then
      match remove_fault env (trace w) file with
      | Some e' => (w, Raise e')
      | None => (cleaned file w, Raise e)
      end
    else (w, Raise e)
  else (w, Raise e).

(** The world at the [try] of line 97, once line 95 has printed. *)
Definition started (w : world) : world :=
  World (fs w) (trace w ++ [EvPrint "Model file not cached locally. Start the download..."]).

(** The world in which a call enters the [try] block, if it gets there:
    [None] on a cache hit and when the directory cannot be created. *)
Definition try_entry (env : Env) (r u : string) (w : world) : option world :=
  if isdir (fs w) (model_folder r u) then
    if isfile (fs w) (model_file r u) then None
    else Some (started (after_banner r u w))
  else
    match os_mkdir env (model_folder r u) 0x1ed (after_banner r u w) with
    | (w1, Ok _) => Some (started w1)
    | (_, Raise _) => None
    end.

(** The events a call has added to the trace. *)
Definition new_events (w w' : world) : list event :=
  drop (length (trace w)) (trace w').

(** A computation whose events all satisfy [P] and that changes the
    filesystem at [file] only. *)
Definition confined {A} (P : event -> Prop) (file : string) (m : M world A) : Prop :=
  forall w w' r, m w = (w', r) ->
    (exists t, trace w' = trace w ++ t /\ Forall P t) /\
    (forall p, p <> file -> fs w' !! p = fs w !! p).

(** The urllib3 manager that lines 98-112 build for a proxy policy. *)
Definition client_for (c : ProxyConfig) : client :=
  if bool_decide (host c <> "") then
    ProxyManager (host c +:+ ":" +:+ pretty (port c))
      (if bool_decide (username c <> "") && bool_decide (password c <> "")
       then Some (ProxyBasicAuth (username c +:+ ":" +:+ password c))
       else None) 1
  else PoolManager 1.

(** Lines 115-127: what follows the request inside the [try] block. *)
Definition receive (env : Env) (folder file : string) (resp : response) : M world string :=
  do total_bytes <-
    (match content_length resp with
     | None => ret None
     | Some s =>
         match builtin_int env s with
         | Some n => ret (Some n)
         | None => raise (ValueError s)
         end
     end) ;
  exec open_wb env file ;
  exec write_chunks file (chunks resp) ;
  exec (match stream_fault resp with
        | Some e => raise e
        | None => ret tt
        end) ;
  ret folder.

(** Lines 98-112 for a policy that is present: the optional message and
    the manager. *)
Definition connect (env : Env) (c : ProxyConfig) : M world client :=
  exec (if bool_decide (host c <> "")
        then print ("Download using proxy: " +:+ host c +:+ ":" +:+ pretty (port c))
        else ret tt) ;
  new_manager env (client_for c).

(** The keyword arguments the Named Model Fetcher hands to the loader. *)
Definition hf_call_args (hf_cache_dir : pyval) (p : option ProxyConfig) : call_args :=
  {| arg_proxy :=
       match p with
       | Some c =>
           if bool_decide (host c <> "")
           then Some {[ "https" := host c +:+ ":" +:+ pretty (port c);
                        "http" := host c +:+ ":" +:+ pretty (port c) ]}
           else None
       | None => None
       end;
     arg_cache_dir := hf_cache_dir;
     arg_torch_dtype := float16;
     arg_resume_download := true |}.

(** The three keys the dispatcher pops, in the order of lines 57-59. *)
Definition required_keys : list string :=
  ["hf_cache_dir"; "external_cache_dir"; "proxy"].

(** Slot [s] of [a'] holds what resolving the reference in [a] returned;
    an absent slot stays absent. *)
Definition resolved_by (env : Env) (kwargs : gmap string pyval) (s : slot)
    (a a' : InferenceTaskArgs) : Prop :=
  match slot_ref s a with
  | None => slot_ref s a' = None
  | Some identifier =>
      exists w1 w2 r,
        dispatch env identifier (slot_loader s) kwargs w1 = (w2, Ok r) /\
        slot_ref s a' = Some r
  end.

(** The chunks that reach the file: the copy loop skips the empty ones. *)
Definition written_chunks (cs : list (list Z)) : list (list Z) :=
  List.filter (fun chunk => negb (Nat.eqb (length chunk) 0)) cs.

Definition present {A} (o : option A) : bool :=
  match o with
  | Some _ => true
  | None => false
  end.

(** What a resolution pass has no assignment for: which optional slots
    are present, and the fields of the wrappers other than [model]. *)
Definition task_shape (a : InferenceTaskArgs)
  : bool * option (gmap string pyval) * option (gmap string pyval) * bool :=
  (present (vae a), cn_other <$> controlnet a, lora_other <$> lora a,
   present (textual_inversion a)).

(** The loader calls a pass over [slots] makes for a task whose present
    slots all hold names: one for each present slot, in order. *)
Fixpoint expected_loads (hf_cache_dir : pyval) (p : option ProxyConfig)
    (a : InferenceTaskArgs) (slots : list slot) : list event :=
  match slots with
  | [] => []
  | s :: slots' =>
      match slot_ref s a with
      | Some identifier =>
          EvLoad (slot_loader s) identifier (hf_call_args hf_cache_dir p) ::
          expected_loads hf_cache_dir p a slots'
      | None => expected_loads hf_cache_dir p a slots'
      end
  end.

(** * Properties *)

Example round_constants :
  length hashlib.K = 64%nat /\
  take 3 hashlib.K = [0x428a2f98; 0x71374491; 0xb5c0fbcf] /\
  last hashlib.K = Some 0xc67178f2 /\
  map (hashlib.frac32_root 2) (take 8 hashlib.primes64) =
  [hashlib.va hashlib.H0; hashlib.vb hashlib.H0; hashlib.vc hashlib.H0; hashlib.vd hashlib.H0;
   hashlib.ve hashlib.H0; hashlib.vf hashlib.H0; hashlib.vg hashlib.H0; hashlib.vh hashlib.H0].
Proof. repeat split; vm_compute; reflexivity. Qed.

Example sha256_empty :
  hashlib.sha256_hexdigest (encode_utf8 "") =
  "e3b0c44298fc1c149afbf4c8996fb92427ae41e4649b934ca495991b7852b855".
Proof. vm_compute. reflexivity. Qed.

Example sha256_abc :
  hashlib.sha256_hexdigest (encode_utf8 "abc") =
  "ba7816bf8f01cfea414140de5dae2223b00361a396177a9cb410ff61f20015ad".
Proof. vm_compute. reflexivity. Qed.

Example sha256_two_blocks :
  hashlib.sha256_hexdigest (encode_utf8
    "aaaaaaaaaaaaaaaaaaaaaaaaaaaaaaaaaaaaaaaaaaaaaaaaaaaaaaaa") =
  "b35439a4ac6f0948b6d6f9e3c6af0f5f590ce20f1bde7090ef7970686ec6738a".
Proof. vm_compute. reflexivity. Qed.

Example sha256_sample_url : url_hash Sample.url = Sample.digest.
Proof. vm_compute. reflexivity. Qed.

Example sample_paths :
  model_folder "/cache" Sample.url = Sample.folder /\
  model_file "/cache" Sample.url = Sample.file.
Proof. split; vm_compute; reflexivity. Qed.

(** ** The digest is sixty-four lower-case hexadecimal digits *)

Section digest_shape.

Lemma hexchar_lower (x : Z) : is_lower_hex (hashlib.hexchar x) = true.
Proof.
  unfold hashlib.hexchar.
  assert (Hlt : (Z.to_nat (x mod 16) < 16)%nat).
  { pose proof (Z.mod_pos_bound x 16). lia. }
  revert Hlt. generalize (Z.to_nat (x mod 16)). intros n Hn.
  do 16 (destruct n as [|n]; [reflexivity|]). lia.
Qed.

Lemma hex32_shape (x : Z) :
  length (hashlib.hex32 x) = 8%nat /\
  Forall (fun c => is_lower_hex c = true) (hashlib.hex32 x).
Proof.
  split; [reflexivity|].
  unfold hashlib.hex32. apply Forall_forall. intros c Hc.
  apply list_elem_of_In, in_map_iff in Hc. destruct Hc as (i & <- & _).
  apply hexchar_lower.
Qed.

Lemma hex_of_state_shape (s : hashlib.hstate) :
  length (hashlib.hex_of_state s) = 64%nat /\
  Forall (fun c => is_lower_hex c = true) (hashlib.hex_of_state s).
Proof.
  unfold hashlib.hex_of_state. split.
  - rewrite !length_app. rewrite !(proj1 (hex32_shape _)). reflexivity.
  - repeat apply Forall_app_2; apply hex32_shape.
Qed.

Lemma url_hash_length (u : string) : String.length (url_hash u) = 64%nat.
Proof.
  unfold url_hash, hashlib.sha256_hexdigest.
  rewrite <- (proj1 (hex_of_state_shape (hashlib.digest_state (encode_utf8 u)))).
  generalize (hashlib.hex_of_state (hashlib.digest_state (encode_utf8 u))).
  induction l as [|c l IH]; simpl; [reflexivity | now rewrite IH].
Qed.

Lemma url_hash_hex (u : string) : all_hex (url_hash u).
Proof.
  unfold all_hex, url_hash, hashlib.sha256_hexdigest.
  rewrite String.list_ascii_of_string_of_list_ascii.
  apply hex_of_state_shape.
Qed.

End digest_shape.

(** ** [os.path.join] on a digest *)

Section join_shape.

Lemma append_nonempty (x d : string) : d <> "" -> x +:+ d <> "".
Proof. destruct x; simpl; [tauto | discriminate]. Qed.

Lemma length_append (x d : string) :
  String.length (x +:+ d) = (String.length x + String.length d)%nat.
Proof. induction x as [|c x IH]; simpl; [reflexivity | now rewrite IH]. Qed.

Lemma endswith_sep_append (x d : string) :
  d <> "" -> posixpath.endswith_sep (x +:+ d) = posixpath.endswith_sep d.
Proof.
  intros Hd. induction x as [|c x IH]; [reflexivity|].
  simpl. destruct (x +:+ d) eqn:E; [|exact IH].
  exfalso. exact (append_nonempty x d Hd E).
Qed.

Lemma lower_hex_not_sep (c : ascii) : is_lower_hex c = true -> Ascii.eqb c "/" = false.
Proof.
  intros H. destruct (Ascii.eqb_spec c "/") as [->|]; [discriminate H | reflexivity].
Qed.

Lemma all_hex_startswith (d : string) : all_hex d -> posixpath.startswith_sep d = false.
Proof.
  destruct d as [|c d]; [reflexivity|].
  unfold all_hex. simpl. intros H. apply Forall_cons in H as [Hc _].
  now apply lower_hex_not_sep.
Qed.

Lemma all_hex_endswith (d : string) : all_hex d -> posixpath.endswith_sep d = false.
Proof.
  unfold all_hex. induction d as [|c d IH]; [reflexivity|].
  simpl. intros H. apply Forall_cons in H as [Hc Hd].
  destruct d; [now apply lower_hex_not_sep | now apply IH].
Qed.

Lemma url_hash_nonempty (u : string) : url_hash u <> "".
Proof.
  intros E. pose proof (url_hash_length u) as H. rewrite E in H. discriminate H.
Qed.

Lemma model_folder_eq (r u : string) :
  model_folder r u = r +:+ root_sep r +:+ url_hash u.
Proof.
  unfold model_folder, posixpath.join, root_sep.
  rewrite (all_hex_startswith _ (url_hash_hex u)).
  destruct (String.eqb r "" || posixpath.endswith_sep r); reflexivity.
Qed.

Lemma model_folder_no_trailing_sep (r u : string) :
  model_folder r u <> "" /\ posixpath.endswith_sep (model_folder r u) = false.
Proof.
  rewrite model_folder_eq. split.
  - apply append_nonempty, append_nonempty, url_hash_nonempty.
  - rewrite !endswith_sep_append by
      (try apply append_nonempty; apply url_hash_nonempty).
    apply all_hex_endswith, url_hash_hex.
Qed.

Lemma model_file_eq (r u : string) :
  model_file r u = model_folder r u +:+ "/model.safetensors".
Proof.
  destruct (model_folder_no_trailing_sep r u) as [Hne Hsep].
  unfold model_file, posixpath.join at 1. simpl posixpath.startswith_sep.
  rewrite Hsep. destruct (String.eqb_spec (model_folder r u) ""); [contradiction|].
  reflexivity.
Qed.

Lemma model_file_neq_folder (r u : string) : model_file r u <> model_folder r u.
Proof.
  rewrite model_file_eq. intros E.
  apply (f_equal String.length) in E. rewrite length_append in E.
  change (String.length "/model.safetensors") with 18%nat in E. lia.
Qed.

End join_shape.

(** ** The URL fetcher, step by step *)

Section fetcher_steps.

Context (env : Env).

Lemma external_unfold (u r : string) (proxy : pyval) (w : world) :
  check_and_download_external_model env u (PyStr r) proxy w =
  if isdir (fs w) (model_folder r u) then
    if isfile (fs w) (model_file r u) then
      (World (fs w) (trace (after_banner r u w) ++
                     [EvPrint "Found a local cache of the model file. Skip the download"]),
       Ok (model_file r u))
    else download_section env u (model_folder r u) proxy (after_banner r u w)
  else
    bind (os_mkdir env (model_folder r u) 0x1ed)
         (fun _ => download_section env u (model_folder r u) proxy) (after_banner r u w).
Proof.
  unfold check_and_download_external_model, after_banner, model_file.
  unfold bind at 1. unfold print at 1, emit at 1.
  unfold bind at 1. unfold of_outcome, os_path_join. fold (model_folder r u).
  unfold bind at 1. unfold print at 1, emit at 1. cbn [fs trace].
  unfold bind at 1. unfold os_path_isdir at 1. cbn [fs trace].
  destruct (isdir (fs w) (model_folder r u)); [|reflexivity].
  unfold bind at 1. unfold os_path_isfile at 1. cbn [fs trace].
  destruct (isfile (fs w) _); reflexivity.
Qed.

End fetcher_steps.

(** ** Inversion of the monadic combinators *)

Section monad_inversion.

Context {S A B : Type}.

Lemma bind_Ok (m : M S A) (k : A -> M S B) (s s' : S) (b : B) :
  bind m k s = (s', Ok b) ->
  exists s1 a, m s = (s1, Ok a) /\ k a s1 = (s', Ok b).
Proof.
  unfold bind. destruct (m s) as [s1 [a|e]]; [eauto | discriminate].
Qed.

Lemma bind_Raise (m : M S A) (k : A -> M S B) (s s' : S) (e : exn) :
  bind m k s = (s', Raise e) ->
  m s = (s', Raise e) \/ exists s1 a, m s = (s1, Ok a) /\ k a s1 = (s', Raise e).
Proof.
  unfold bind. destruct (m s) as [s1 [a|e1]]; [eauto|].
  intros [= -> ->]. now left.
Qed.

Lemma bind_step (m : M S A) (k : A -> M S B) (s s1 : S) (a : A) :
  m s = (s1, Ok a) -> bind m k s = k a s1.
Proof. unfold bind. now intros ->. Qed.

Lemma bind_abort (m : M S A) (k : A -> M S B) (s s1 : S) (e : exn) :
  m s = (s1, Raise e) -> bind m k s = (s1, Raise e).
Proof. unfold bind. now intros ->. Qed.

End monad_inversion.

(** ** The failure handler *)

Section handler.

Context (env : Env).

Lemma try_except_cleanup {A} (body : M world A) (file : string) (w : world) :
  try_except body (cleanup env file) w =
  match body w with
  | (w', Ok a) => (w', Ok a)
  | (w', Raise e) => handled env file e w'
  end.
Proof.
  unfold try_except, handled. destruct (body w) as [w' [a|e]]; [reflexivity|].
  destruct (is_Exception e); [|reflexivity].
  unfold cleanup, cleaned, bind, os_path_isfile, isfile, os_remove, raise, ret.
  destruct (fs w' !! file) as [[|c]|] eqn:E; cbn [fs trace]; rewrite ?E; try reflexivity.
  destruct (remove_fault env (trace w') file); reflexivity.
Qed.

Lemma cleaned_no_file (file : string) (w : world) :
  isfile (fs (cleaned file w)) file = false.
Proof.
  unfold cleaned. destruct (isfile (fs w) file) eqn:E; [|exact E].
  unfold isfile. cbn [fs]. now rewrite lookup_delete_eq.
Qed.

Lemma cleaned_other (file p : string) (w : world) :
  p <> file -> fs (cleaned file w) !! p = fs w !! p.
Proof.
  intros Hp. unfold cleaned. destruct (isfile (fs w) file); [|reflexivity].
  cbn [fs]. now rewrite lookup_delete_ne.
Qed.

Lemma handled_Raise {A} (file : string) (e : exn) (w w' : world) (r : outcome A) :
  handled env file e w = (w', r) -> exists e', r = Raise e'.
Proof.
  unfold handled.
  destruct (is_Exception e); [|intros [= _ <-]; eauto].
  destruct (isfile (fs w) file); [|intros [= _ <-]; eauto].
  destruct (remove_fault env (trace w) file); intros [= _ <-]; eauto.
Qed.

Lemma handled_no_file {A} (file : string) (e : exn) (w : world) :
  isfile (fs w) file = false -> @handled A env file e w = (w, Raise e).
Proof. intros H. unfold handled. rewrite H. now destruct (is_Exception e). Qed.



Lemma handled_removed {A} (file : string) (e : exn) (w : world) :
  is_Exception e = true ->
  (isfile (fs w) file = true -> remove_fault env (trace w) file = None) ->
  @handled A env file e w = (cleaned file w, Raise e).
Proof.
  intros H1 H2. unfold handled. rewrite H1.
  destruct (isfile (fs w) file) eqn:Hf.
  - now rewrite H2.
  - unfold cleaned. now rewrite Hf.
Qed.

Lemma handled_frame {A} (file : string) (e : exn) (w w' : world) (r : outcome A) :
  handled env file e w = (w', r) ->
  forall p, p <> file -> fs w' !! p = fs w !! p.
Proof.
  unfold handled.
  destruct (is_Exception e); [|now intros [= <- _]].
  destruct (isfile (fs w) file); [|now intros [= <- _]].
  destruct (remove_fault env (trace w) file); intros [= <- _]; [reflexivity|].
  intros p Hp. now apply cleaned_other.
Qed.

Lemma handled_trace {A} (file : string) (e : exn) (w w' : world) (r : outcome A) :
  handled env file e w = (w', r) ->
  exists t, trace w' = trace w ++ t /\
            Forall (fun ev => is_network ev = false) t.
Proof.
  assert (Hsame : forall x : outcome A, (w, x) = (w', r) ->
    exists t, trace w' = trace w ++ t /\
              Forall (fun ev => is_network ev = false) t).
  { intros x [= <- _]. exists []. rewrite app_nil_r. split; [reflexivity | constructor]. }
  unfold handled.
  destruct (is_Exception e); [|apply Hsame].
  destruct (isfile (fs w) file) eqn:Hf; [|apply Hsame].
  destruct (remove_fault env (trace w) file); [apply Hsame|].
  intros [= <- _]. unfold cleaned. rewrite Hf. cbn [trace].
  exists [EvRemove file]. split; [reflexivity | now repeat constructor].
Qed.

End handler.

(** ** Computations confined to one file *)

Section confinement.

Context (env : Env) (file : string).

Lemma confined_ret {A} (P : event -> Prop) (a : A) : confined P file (ret a).
Proof.
  intros w w' r [= <- <-]. split; [|reflexivity].
  exists []. now rewrite app_nil_r.
Qed.

Lemma confined_raise {A} (P : event -> Prop) (e : exn) : confined P file (@raise world A e).
Proof.
  intros w w' r [= <- <-]. split; [|reflexivity].
  exists []. now rewrite app_nil_r.
Qed.

Lemma confined_of_outcome {A} (P : event -> Prop) (o : outcome A) :
  confined P file (of_outcome o).
Proof.
  intros w w' r [= <- <-]. split; [|reflexivity].
  exists []. now rewrite app_nil_r.
Qed.

Lemma confined_bind {A B} (P : event -> Prop) (m : M world A) (k : A -> M world B) :
  confined P file m -> (forall a, confined P file (k a)) -> confined P file (bind m k).
Proof.
  intros Hm Hk w w' r. unfold bind.
  destruct (m w) as [w1 [a|e]] eqn:E1.
  - intros E2. destruct (Hm _ _ _ E1) as [(t1 & T1 & F1) G1].
    destruct (Hk a _ _ _ E2) as [(t2 & T2 & F2) G2]. split.
    + exists (t1 ++ t2). rewrite T2, T1, app_assoc. split; [reflexivity|].
      now apply Forall_app_2.
    + intros p Hp. now rewrite G2, G1.
  - intros [= <- <-]. exact (Hm _ _ _ E1).
Qed.

Lemma confined_weaken {A} (P Q : event -> Prop) (m : M world A) :
  (forall ev, P ev -> Q ev) -> confined P file m -> confined Q file m.
Proof.
  intros HPQ Hm w w' r E. destruct (Hm _ _ _ E) as [(t & T & F) G].
  split; [|exact G]. exists t. split; [exact T|].
  eapply Forall_impl; [exact F | exact HPQ].
Qed.

Lemma confined_emit (P : event -> Prop) (ev : event) : P ev -> confined P file (emit ev).
Proof.
  intros Hev w w' r [= <- <-]. split; [|reflexivity].
  exists [ev]. split; [reflexivity | now constructor].
Qed.

Lemma confined_new_manager (P : event -> Prop) (c : client) :
  P (EvClient c) -> confined P file (new_manager env c).
Proof.
  intros Hev w w' r. unfold new_manager.
  destruct (manager_fault env (trace w) c); intros [= <- <-]; (split; [|reflexivity]).
  - exists []. now rewrite app_nil_r.
  - exists [EvClient c]. split; [reflexivity | now constructor].
Qed.

Lemma confined_request (P : event -> Prop) (c : client) (method url : string) :
  P (EvRequest c method url) -> confined P file (request env c method url).
Proof.
  intros Hev w w' r. unfold request.
  destruct (http_request env (trace w) c method url); intros [= <- <-];
    (split; [|reflexivity]);
    (exists [EvRequest c method url]; split; [reflexivity | now constructor]).
Qed.

Lemma confined_open_wb (P : event -> Prop) :
  P (EvOpen file) -> confined P file (open_wb env file).
Proof.
  intros Hev w w' r. unfold open_wb.
  assert (Hnone : forall x : outcome unit,
    (w, x) = (w', r) ->
    (exists t, trace w' = trace w ++ t /\ Forall P t) /\
    (forall p, p <> file -> fs w' !! p = fs w !! p)).
  { intros x [= <- <-]. split; [|reflexivity]. exists []. now rewrite app_nil_r. }
  assert (Hgo : match open_fault env (trace w) file with
                | Some e => (w, Raise e)
                | None => (World (<[file := File []]> (fs w)) (trace w ++ [EvOpen file]), Ok tt)
                end = (w', r) ->
    (exists t, trace w' = trace w ++ t /\ Forall P t) /\
    (forall p, p <> file -> fs w' !! p = fs w !! p)).
  { destruct (open_fault env (trace w) file); [apply Hnone|].
    intros [= <- <-]. split.
    - exists [EvOpen file]. split; [reflexivity | now constructor].
    - intros p Hp. cbn [fs]. now rewrite lookup_insert_ne. }
  destruct (fs w !! file) as [[|c]|]; [apply Hnone | exact Hgo | exact Hgo].
Qed.

Lemma confined_file_write (P : event -> Prop) (chunk : list Z) :
  P (EvWrite file chunk) -> confined P file (file_write file chunk).
Proof.
  intros Hev w w' r [= <- <-]. split.
  - exists [EvWrite file chunk]. split; [reflexivity | now constructor].
  - intros p Hp. cbn [fs]. now rewrite lookup_alter_ne.
Qed.

Lemma confined_write_chunks (P : event -> Prop) (cs : list (list Z)) :
  (forall chunk, P (EvWrite file chunk)) -> confined P file (write_chunks file cs).
Proof.
  intros Hev. induction cs as [|chunk cs IH]; [apply confined_ret|].
  cbn [write_chunks]. apply confined_bind; [|intros _; exact IH].
  destruct chunk; [apply confined_ret | now apply confined_file_write].
Qed.

End confinement.

(** ** The [try] block *)

Section try_block.

Context (env : Env) (u folder file : string).

Lemma download_absent (w : world) :
  download env u folder file PyNone w = (w, Raise (AttributeError "NoneType" "host")).
Proof. reflexivity. Qed.

Lemma download_str (s : string) (w : world) :
  download env u folder file (PyStr s) w = (w, Raise (AttributeError "str" "host")).
Proof. reflexivity. Qed.

Lemma download_present (c : ProxyConfig) (w : world) :
  download env u folder file (PyProxy c) w =
  bind (connect env c)
       (fun http => bind (request env http "GET" u) (receive env folder file)) w.
Proof.
  unfold download, connect, client_for, receive.
  unfold of_outcome, proxy_attrs. unfold bind at 1.
  destruct (bool_decide (host c <> "")).
  - unfold bind at 1 3 4. unfold bind at 1. reflexivity.
  - unfold bind at 1 3 4. unfold bind at 1. reflexivity.
Qed.

Lemma receive_confined (P : event -> Prop) (resp : response) :
  P (EvOpen file) -> (forall chunk, P (EvWrite file chunk)) ->
  confined P file (receive env folder file resp).
Proof.
  intros Ho Hw. unfold receive.
  apply confined_bind.
  { destruct (content_length resp) as [s|]; [|apply confined_ret].
    destruct (builtin_int env s); [apply confined_ret | apply confined_raise]. }
  intros _. apply confined_bind; [now apply confined_open_wb|].
  intros _. apply confined_bind; [now apply confined_write_chunks|].
  intros _. apply confined_bind; [|intros _; apply confined_ret].
  destruct (stream_fault resp); [apply confined_raise | apply confined_ret].
Qed.

Lemma connect_confined (P : event -> Prop) (c : ProxyConfig) :
  (forall s, P (EvPrint s)) -> (forall cl, P (EvClient cl)) ->
  confined P file (connect env c).
Proof.
  intros Hp Hc. unfold connect. apply confined_bind.
  - destruct (bool_decide (host c <> "")); [now apply confined_emit | apply confined_ret].
  - intros _. now apply confined_new_manager.
Qed.

Lemma download_confined (proxy : pyval) :
  confined (fun ev => forall p, ev <> EvRemove p /\ ev <> EvMkdir p 0x1ed) file
           (download env u folder file proxy).
Proof.
  destruct proxy as [|s|c].
  - intros w w' r E. rewrite download_absent in E. revert E.
    apply (confined_raise file _ (AttributeError "NoneType" "host")).
  - intros w w' r E. revert E.
    apply (confined_raise file _ (AttributeError "str" "host")).
  - intros w w' r E. rewrite download_present in E. revert w w' r E.
    apply confined_bind; [apply connect_confined; now intros|].
    intros http. apply confined_bind; [apply confined_request; now intros|].
    intros resp. apply receive_confined; now intros.
Qed.

Lemma download_Ok (proxy : pyval) (w w' : world) (v : string) :
  download env u folder file proxy w = (w', Ok v) ->
  v = folder /\ isfile (fs w') file = true.
Proof.
  destruct proxy as [|s|c]; [discriminate | discriminate |].
  rewrite download_present. intros E.
  apply bind_Ok in E as (w1 & http & _ & E).
  apply bind_Ok in E as (w2 & resp & _ & E).
  unfold receive in E.
  apply bind_Ok in E as (w3 & tb & _ & E).
  apply bind_Ok in E as (w4 & [] & Eopen & E).
  apply bind_Ok in E as (w5 & [] & Ewrite & E).
  apply bind_Ok in E as (w6 & [] & Efault & E).
  injection E as <- <-. split; [reflexivity|].
  assert (H4 : isfile (fs w4) file = true).
  { unfold open_wb in Eopen.
    destruct (fs w3 !! file) as [[|c0]|]; [discriminate | |];
      (destruct (open_fault env (trace w3) file); [discriminate|]);
      injection Eopen as <-; unfold isfile; cbn [fs]; now rewrite lookup_insert_eq. }
  assert (H5 : isfile (fs w5) file = true).
  { clear Eopen Efault. revert w4 H4 Ewrite.
    induction (chunks resp) as [|chunk cs IH]; intros w4 H4 Ewrite.
    - injection Ewrite as <-. exact H4.
    - cbn [write_chunks] in Ewrite.
      apply bind_Ok in Ewrite as (wa & [] & Ea & Ewrite).
      apply (IH wa); [|exact Ewrite].
      destruct chunk as [|b chunk]; [injection Ea as <-; exact H4|].
      injection Ea as <-. unfold isfile in *. cbn [fs]. rewrite lookup_alter_eq.
      destruct (fs w4 !! file) as [[|c0]|]; try discriminate H4. reflexivity. }
  destruct (stream_fault resp); [discriminate|]. injection Efault as <-. exact H5.
Qed.

End try_block.

(** ** The download section and the whole fetcher *)

Section fetcher_results.

Context (env : Env).

Lemma download_section_unfold (u folder : string) (proxy : pyval) (w : world) :
  download_section env u folder proxy w =
  match download env u folder (posixpath.join folder "model.safetensors") proxy (started w) with
  | (w', Ok a) => (w', Ok a)
  | (w', Raise e) => handled env (posixpath.join folder "model.safetensors") e w'
  end.
Proof.
  unfold download_section. unfold bind at 1. unfold print at 1, emit at 1.
  fold (started w). apply try_except_cleanup.
Qed.

Lemma download_section_Ok (u folder : string) (proxy : pyval) (w w' : world) (v : string) :
  download_section env u folder proxy w = (w', Ok v) ->
  v = folder /\ isfile (fs w') (posixpath.join folder "model.safetensors") = true.
Proof.
  rewrite download_section_unfold.
  destruct (download env u folder _ proxy (started w)) as [w1 [a|e]] eqn:E.
  - intros [= <- <-]. exact (download_Ok _ _ _ _ _ _ _ _ E).
  - intros Eh. apply handled_Raise in Eh as [e' He']. discriminate He'.
Qed.

Lemma external_hit (u r : string) (proxy : pyval) (w : world) :
  isdir (fs w) (model_folder r u) = true ->
  isfile (fs w) (model_file r u) = true ->
  check_and_download_external_model env u (PyStr r) proxy w =
  (World (fs w) (trace (after_banner r u w) ++
                 [EvPrint "Found a local cache of the model file. Skip the download"]),
   Ok (model_file r u)).
Proof. intros Hd Hf. rewrite external_unfold, Hd, Hf. reflexivity. Qed.

Lemma external_stale (u r : string) (proxy : pyval) (w : world) :
  isdir (fs w) (model_folder r u) = true ->
  isfile (fs w) (model_file r u) = false ->
  check_and_download_external_model env u (PyStr r) proxy w =
  download_section env u (model_folder r u) proxy (after_banner r u w).
Proof. intros Hd Hf. rewrite external_unfold, Hd, Hf. reflexivity. Qed.

Lemma external_Ok (u r : string) (proxy : pyval) (w w' : world) (v : string) :
  check_and_download_external_model env u (PyStr r) proxy w = (w', Ok v) ->
  v = model_folder r u \/ v = model_file r u.
Proof.
  rewrite external_unfold.
  destruct (isdir (fs w) (model_folder r u)).
  - destruct (isfile (fs w) (model_file r u)).
    + intros [= _ <-]. now right.
    + intros E. apply download_section_Ok in E as [-> _]. now left.
  - intros E. apply bind_Ok in E as (w1 & [] & _ & E).
    apply download_section_Ok in E as [-> _]. now left.
Qed.

End fetcher_results.

(** C3: for every identifier [u] and cache root [r] the cache directory is
    [r] joined with the 64 lower-case hexadecimal digits of the SHA-256 of
    the UTF-8 bytes of [u], and the artifact file is [model.safetensors]
    inside it; the paths depend on [u] and [r] only, so in every world and
    under every environment a call returns one of these two paths. *)
Theorem C3_cache_location (u r : string) :
  url_hash u = hashlib.sha256_hexdigest (encode_utf8 u) /\
  String.length (url_hash u) = 64%nat /\
  all_hex (url_hash u) /\
  model_folder r u = r +:+ root_sep r +:+ url_hash u /\
  model_file r u = model_folder r u +:+ "/model.safetensors" /\
  (forall env proxy w,
     match snd (check_and_download_external_model env u (PyStr r) proxy w) with
     | Ok v => v = model_folder r u \/ v = model_file r u
     | Raise _ => True
     end).
Proof.
  split; [reflexivity|].
  split; [apply url_hash_length|].
  split; [apply url_hash_hex|].
  split; [apply model_folder_eq|].
  split; [apply model_file_eq|].
  intros env proxy w.
  destruct (check_and_download_external_model env u (PyStr r) proxy w) as [w' [v|e]] eqn:E;
    [|exact I].
  exact (external_Ok _ _ _ _ _ _ _ E).
Qed.

(** C1 (the code departs from it): on a cache hit the fetcher returns the
    path of the artifact file, while after a download it returns the cache
    directory; the two differ. *)
Theorem C1_cache_hit_returns_file_path :
  snd (check_and_download_external_model Sample.quiet Sample.url (PyStr "/cache")
         PyNone Sample.cached_world) = Ok Sample.file /\
  snd (check_and_download_external_model Sample.quiet Sample.url (PyStr "/cache")
         (PyProxy Sample.proxy_cfg) Sample.empty_world) = Ok Sample.folder /\
  Sample.file <> Sample.folder.
Proof.
  split; [vm_compute; reflexivity|].
  split; [vm_compute; reflexivity|].
  intros E. apply (f_equal String.length) in E. vm_compute in E. discriminate E.
Qed.

(** ** Proxy resolution *)

Section proxy_resolution.

Lemma hf_proxy_dict_spec (p : option ProxyConfig) :
  get_hf_proxy_dict (policy_val p) =
  Ok (match p with
      | Some c =>
          if bool_decide (host c <> "")
          then Some {[ "https" := host c +:+ ":" +:+ pretty (port c);
                       "http" := host c +:+ ":" +:+ pretty (port c) ]}
          else None
      | None => None
      end).
Proof.
  destruct p as [c|]; [|reflexivity].
  unfold policy_val, get_hf_proxy_dict, proxy_attrs.
  destruct (bool_decide (host c <> "")); reflexivity.
Qed.

Lemma client_for_direct (c : ProxyConfig) :
  host c = "" -> client_for c = PoolManager 1.
Proof.
  intros H. unfold client_for. rewrite bool_decide_eq_false_2; [reflexivity|].
  intros Hne. now apply Hne.
Qed.

Lemma client_for_proxied (c : ProxyConfig) :
  host c <> "" ->
  exists hdr,
    client_for c = ProxyManager (host c +:+ ":" +:+ pretty (port c)) hdr 1 /\
    (username c <> "" /\ password c <> "" ->
       hdr = Some (ProxyBasicAuth (username c +:+ ":" +:+ password c))) /\
    (~ (username c <> "" /\ password c <> "") -> hdr = None).
Proof.
  intros H. unfold client_for. rewrite bool_decide_eq_true_2 by exact H.
  eexists. split; [reflexivity|]. split.
  - intros [Hu Hp]. now rewrite !bool_decide_eq_true_2.
  - intros Hn. destruct (bool_decide (username c <> "")) eqn:Eu;
      destruct (bool_decide (password c <> "")) eqn:Ep; try reflexivity.
    exfalso. apply Hn. split; [now apply bool_decide_eq_true in Eu
                              | now apply bool_decide_eq_true in Ep].
Qed.

Lemma connect_builds_client (env : Env) (c : ProxyConfig) (w w' : world) (cl : client) :
  connect env c w = (w', Ok cl) -> cl = client_for c.
Proof.
  unfold connect. intros E. apply bind_Ok in E as (w1 & [] & _ & E).
  unfold new_manager in E.
  destruct (manager_fault env (trace w1) (client_for c)); [discriminate|].
  now injection E as _ <-.
Qed.

End proxy_resolution.

(** C2 (the code departs from it): with an absent proxy policy the URL
    fetcher raises [AttributeError] on [proxy.host] before any HTTP client
    is built; the direct client is built when the policy is present and its
    host is the empty string. *)
Theorem C2_absent_policy_raises :
  snd (check_and_download_external_model Sample.quiet Sample.url (PyStr "/cache")
         PyNone Sample.stale_world) = Raise (AttributeError "NoneType" "host") /\
  List.filter is_network
    (trace (fst (check_and_download_external_model Sample.quiet Sample.url
                   (PyStr "/cache") PyNone Sample.stale_world))) = [] /\
  List.filter is_network
    (trace (fst (check_and_download_external_model Sample.quiet Sample.url
                   (PyStr "/cache") (PyProxy Sample.no_proxy_cfg) Sample.stale_world))) =
  [EvClient (PoolManager 1); EvRequest (PoolManager 1) "GET" Sample.url].
Proof. repeat split; vm_compute; reflexivity. Qed.

(** C8 (the code departs from it for the URL fetcher): an absent policy
    resolves to no proxy on the named-model path, but a URL identifier
    dispatched with an absent policy fails with [AttributeError] instead
    of using a direct connection. *)
Theorem C8_absent_policy_url_path :
  get_hf_proxy_dict PyNone = Ok None /\
  snd (check_and_download_model_by_name Sample.quiet "org/name"
         ModelMixin_from_pretrained Sample.full_kwargs Sample.empty_world) = Ok "org/name" /\
  snd (check_and_download_model_by_name Sample.quiet Sample.url
         ModelMixin_from_pretrained Sample.full_kwargs Sample.empty_world) =
  Raise (AttributeError "NoneType" "host").
Proof. repeat split; vm_compute; reflexivity. Qed.

(** ** Failure of the download *)

Section failed_download.

Context (env : Env).

Lemma os_mkdir_Ok (p : string) (mode : Z) (w w' : world) :
  os_mkdir env p mode w = (w', Ok tt) -> isdir (fs w') p = true.
Proof.
  unfold os_mkdir. destruct (fs w !! p); [discriminate|].
  destruct (mkdir_fault env (trace w) p); [discriminate|].
  intros [= <-]. unfold isdir. cbn [fs]. now rewrite lookup_insert_eq.
Qed.

Lemma try_entry_spec (u r : string) (proxy : pyval) (w w1 : world) :
  try_entry env r u w = Some w1 ->
  isdir (fs w1) (model_folder r u) = true /\
  check_and_download_external_model env u (PyStr r) proxy w =
  match download env u (model_folder r u) (model_file r u) proxy w1 with
  | (w', Ok a) => (w', Ok a)
  | (w', Raise e) => handled env (model_file r u) e w'
  end.
Proof.
  unfold try_entry. rewrite external_unfold.
  destruct (isdir (fs w) (model_folder r u)) eqn:Hd.
  - destruct (isfile (fs w) (model_file r u)); [discriminate|].
    intros [= <-]. split; [exact Hd|]. apply download_section_unfold.
  - destruct (os_mkdir env (model_folder r u) 0x1ed (after_banner r u w))
      as [wm [[]|e]] eqn:Em; [|discriminate].
    intros [= <-]. split.
    + exact (os_mkdir_Ok _ _ _ _ Em).
    + rewrite (bind_step _ _ _ _ _ Em). apply download_section_unfold.
Qed.

End failed_download.




(** ** Counting requests *)

Section request_count.

Context (env : Env).

Lemma new_events_app (w w' : world) (t : list event) :
  trace w' = trace w ++ t -> new_events w w' = t.
Proof. intros E. unfold new_events. rewrite E. apply drop_app_length. Qed.

Lemma filter_none (f : event -> bool) (t : list event) :
  Forall (fun ev => f ev = false) t -> List.filter f t = [].
Proof.
  induction 1 as [|ev t Hev _ IH]; [reflexivity|].
  cbn [List.filter]. now rewrite Hev.
Qed.

Lemma not_network_not_request (t : list event) :
  Forall (fun ev => is_network ev = false) t ->
  Forall (fun ev => is_request ev = false) t.
Proof.
  intros F. eapply Forall_impl; [exact F|].
  intros [] H; try reflexivity; discriminate H.
Qed.

(** The requests a download section issues for a policy that is present:
    one [GET] of the identifier once the manager is built, none otherwise. *)
Lemma download_section_requests (u folder : string) (c : ProxyConfig)
    (w0 w w' : world) (pre : list event) (r : outcome string) :
  trace w = trace w0 ++ pre ->
  Forall (fun ev => is_request ev = false) pre ->
  download_section env u folder (PyProxy c) w = (w', r) ->
  List.filter is_request (new_events w0 w') =
  match connect env c (started w) with
  | (_, Ok _) => [EvRequest (client_for c) "GET" u]
  | (_, Raise _) => []
  end.
Proof.
  intros Hpre Fpre. rewrite download_section_unfold, download_present.
  set (file := posixpath.join folder "model.safetensors").
  set (nonreq := fun ev => is_request ev = false).
  unfold bind at 1.
  destruct (connect env c (started w)) as [wc [http|e]] eqn:Ec.
  - assert (http = client_for c) as -> by exact (connect_builds_client _ _ _ _ _ Ec).
    destruct (connect_confined env file nonreq c (fun _ => eq_refl) (fun _ => eq_refl)
                _ _ _ Ec) as [(t1 & T1 & F1) _].
    cbn [trace started] in T1. rewrite Hpre in T1.
    unfold bind at 1. unfold request at 1.
    set (req := EvRequest (client_for c) "GET" u).
    destruct (http_request env (trace wc) (client_for c) "GET" u) as [e|resp].
    + intros Eh.
      destruct (handled_trace env _ _ _ _ _ Eh) as (t3 & T3 & F3).
      rewrite (new_events_app w0 _ (pre ++ [EvPrint "Model file not cached locally. Start the download..."]
                                   ++ t1 ++ [req] ++ t3))
        by (rewrite T3; cbn [trace]; rewrite T1, <- !app_assoc; reflexivity).
      rewrite !List.filter_app, (filter_none _ pre Fpre), (filter_none _ t1 F1),
        (filter_none _ t3 (not_network_not_request _ F3)). reflexivity.
    + destruct (receive env folder file resp (World (fs wc) (trace wc ++ [req])))
        as [w2 [v|e]] eqn:Er;
        destruct (receive_confined env folder file nonreq resp eq_refl (fun _ => eq_refl)
                    _ _ _ Er) as [(t2 & T2 & F2) _];
        cbn [trace] in T2; rewrite T1 in T2.
      * intros [= <- <-].
        rewrite (new_events_app w0 _ (pre ++ [EvPrint "Model file not cached locally. Start the download..."]
                                     ++ t1 ++ [req] ++ t2))
          by (rewrite T2, <- !app_assoc; reflexivity).
        rewrite !List.filter_app, (filter_none _ pre Fpre), (filter_none _ t1 F1), (filter_none _ t2 F2). reflexivity.
      * intros Eh.
        destruct (handled_trace env _ _ _ _ _ Eh) as (t3 & T3 & F3). rewrite T2 in T3.
        rewrite (new_events_app w0 _ (pre ++ [EvPrint "Model file not cached locally. Start the download..."]
                                     ++ t1 ++ [req] ++ t2 ++ t3))
          by (rewrite T3, <- !app_assoc; reflexivity).
        rewrite !List.filter_app, (filter_none _ pre Fpre), (filter_none _ t1 F1), (filter_none _ t2 F2),
          (filter_none _ t3 (not_network_not_request _ F3)). reflexivity.
  - intros Eh.
    destruct (connect_confined env file nonreq c (fun _ => eq_refl) (fun _ => eq_refl)
                _ _ _ Ec) as [(t1 & T1 & F1) _].
    cbn [trace started] in T1. rewrite Hpre in T1.
    destruct (handled_trace env _ _ _ _ _ Eh) as (t3 & T3 & F3). rewrite T1 in T3.
    rewrite (new_events_app w0 _ (pre ++ [EvPrint "Model file not cached locally. Start the download..."]
                                 ++ t1 ++ t3))
      by (rewrite T3, <- !app_assoc; reflexivity).
    rewrite !List.filter_app, (filter_none _ pre Fpre), (filter_none _ t1 F1),
      (filter_none _ t3 (not_network_not_request _ F3)). reflexivity.
Qed.

End request_count.

(** C5: when the cache directory holds the artifact file, the fetcher
    returns without any network event and without any filesystem write,
    leaving the filesystem as it was; when the directory exists but the
    file does not, the call is the download section of lines 92-133 run on
    the untouched filesystem (no directory is created), and once the
    HTTP client is built exactly one [GET] of the identifier is issued. *)
Theorem C5_cache_hit_skips_download
    (env : Env) (u r : string) (proxy : pyval) (w : world) :
  isdir (fs w) (model_folder r u) = true ->
  let run := check_and_download_external_model env u (PyStr r) proxy w in
  if isfile (fs w) (model_file r u) then
    (exists v, snd run = Ok v) /\
    fs (fst run) = fs w /\
    List.filter is_network (new_events w (fst run)) = [] /\
    List.filter is_fs_write (new_events w (fst run)) = []
  else
    run = download_section env u (model_folder r u) proxy (after_banner r u w) /\
    fs (after_banner r u w) = fs w /\
    List.filter is_fs_write (new_events w (after_banner r u w)) = [] /\
    match proxy with
    | PyProxy c =>
        match connect env c (started (after_banner r u w)) with
        | (_, Ok _) =>
            List.filter is_request (new_events w (fst run)) =
            [EvRequest (client_for c) "GET" u]
        | (_, Raise _) => List.filter is_request (new_events w (fst run)) = []
        end
    | _ => snd run = Raise (AttributeError
                              match proxy with PyStr _ => "str" | _ => "NoneType" end
                              "host")
    end.
Proof.
  intros Hd run. subst run.
  destruct (isfile (fs w) (model_file r u)) eqn:Hf.
  - rewrite (external_hit env u r proxy w Hd Hf). cbn [fst snd fs].
    split; [eauto|]. split; [reflexivity|].
    rewrite (new_events_app w _
      [EvPrint ("Check and download the external model file: " +:+ u);
       EvPrint ("The model file will be saved as: " +:+ model_file r u);
       EvPrint "Found a local cache of the model file. Skip the download"])
      by (unfold after_banner; cbn [trace]; rewrite <- !app_assoc; reflexivity).
    split; reflexivity.
  - rewrite (external_stale env u r proxy w Hd Hf).
    split; [reflexivity|]. split; [reflexivity|].
    assert (Hbanner : trace (after_banner r u w) = trace w ++
      [EvPrint ("Check and download the external model file: " +:+ u);
       EvPrint ("The model file will be saved as: " +:+ model_file r u)])
      by (unfold after_banner; cbn [trace]; rewrite <- !app_assoc; reflexivity).
    split; [rewrite (new_events_app w _ _ Hbanner); reflexivity|].
    destruct proxy as [|s|c].
    + rewrite download_section_unfold, download_absent.
      rewrite handled_no_file by exact Hf. reflexivity.
    + rewrite download_section_unfold, download_str.
      rewrite handled_no_file by exact Hf. reflexivity.
    + destruct (download_section env u (model_folder r u) (PyProxy c) (after_banner r u w))
        as [w' res] eqn:E. cbn [fst].
      rewrite (download_section_requests env u _ c w _ w' _ res Hbanner
                 ltac:(repeat constructor) E).
      destruct (connect env c (started (after_banner r u w))) as [wc [http|e]]; reflexivity.
Qed.

Lemma C5_cache_hit_witness :
  (let run := check_and_download_external_model Sample.quiet Sample.url (PyStr "/cache")
                (PyProxy Sample.proxy_cfg) Sample.cached_world in
   (exists v, snd run = Ok v) /\
   fs (fst run) = fs Sample.cached_world /\
   List.filter is_network (new_events Sample.cached_world (fst run)) = [] /\
   List.filter is_fs_write (new_events Sample.cached_world (fst run)) = []) /\
  List.filter is_request
    (new_events Sample.stale_world
       (fst (check_and_download_external_model Sample.quiet Sample.url (PyStr "/cache")
               (PyProxy Sample.proxy_cfg) Sample.stale_world))) =
  [EvRequest (client_for Sample.proxy_cfg) "GET" Sample.url].
Proof.
  split.
  - assert (Hd : isdir (fs Sample.cached_world) (model_folder "/cache" Sample.url) = true)
      by (vm_compute; reflexivity).
    pose proof (C5_cache_hit_skips_download Sample.quiet Sample.url "/cache"
                  (PyProxy Sample.proxy_cfg) Sample.cached_world Hd) as H.
    cbv zeta in H.
    replace (isfile (fs Sample.cached_world) (model_file "/cache" Sample.url))
      with true in H by (vm_compute; reflexivity).
    exact H.
  - assert (Hd : isdir (fs Sample.stale_world) (model_folder "/cache" Sample.url) = true)
      by (vm_compute; reflexivity).
    pose proof (C5_cache_hit_skips_download Sample.quiet Sample.url "/cache"
                  (PyProxy Sample.proxy_cfg) Sample.stale_world Hd) as H.
    cbv zeta in H.
    replace (isfile (fs Sample.stale_world) (model_file "/cache" Sample.url))
      with false in H by (vm_compute; reflexivity).
    destruct H as (_ & _ & _ & H).
    replace (connect Sample.quiet Sample.proxy_cfg
               (started (after_banner "/cache" Sample.url Sample.stale_world)))
      with (World (fs Sample.stale_world)
              (trace (started (after_banner "/cache" Sample.url Sample.stale_world)) ++
               [EvPrint "Download using proxy: http://10.0.0.1:8080";
                EvClient (client_for Sample.proxy_cfg)]),
            Ok (client_for Sample.proxy_cfg)) in H by (vm_compute; reflexivity).
    exact H.
Defined.

(** ** The dispatcher and the Named Model Fetcher *)

(** C6: with the three keyword arguments present, the dispatcher is the
    URL fetcher on the external cache directory exactly when
    [validators.url] accepts the identifier, and the Named Model Fetcher
    on the loader and the HF cache directory otherwise; it adds no failure
    of its own, so no identifier is rejected at this layer. *)
Theorem C6_dispatch_by_url_validity
    (env : Env) (u : string) (loader_fn : loader_id) (kwargs : gmap string pyval)
    (hf_cache_dir external_cache_dir proxy : pyval) (w : world) :
  kwargs !! "hf_cache_dir" = Some hf_cache_dir ->
  kwargs !! "external_cache_dir" = Some external_cache_dir ->
  kwargs !! "proxy" = Some proxy ->
  check_and_download_model_by_name env u loader_fn kwargs w =
  if validators_url env u
  then check_and_download_external_model env u external_cache_dir proxy w
  else check_and_download_hf_model env u loader_fn hf_cache_dir proxy w.
Proof.
  intros H1 H2 H3. unfold check_and_download_model_by_name.
  unfold bind at 1. unfold of_outcome at 1. unfold dict_pop at 1. rewrite H1. cbn [snd fst].
  unfold bind at 1. unfold of_outcome at 1. unfold dict_pop at 1.
  rewrite lookup_delete_ne by discriminate. rewrite H2. cbn [snd fst].
  unfold bind at 1. unfold of_outcome at 1. unfold dict_pop at 1.
  rewrite !lookup_delete_ne by discriminate. rewrite H3. cbn [snd fst].
  destruct (validators_url env u); reflexivity.
Qed.

Lemma C6_dispatch_witness :
  check_and_download_model_by_name Sample.quiet Sample.url ModelMixin_from_pretrained
    Sample.proxied_kwargs Sample.stale_world =
  check_and_download_external_model Sample.quiet Sample.url (PyStr "/cache")
    (PyProxy Sample.proxy_cfg) Sample.stale_world /\
  check_and_download_model_by_name Sample.quiet "my-org/my-model" ModelMixin_from_pretrained
    Sample.proxied_kwargs Sample.stale_world =
  check_and_download_hf_model Sample.quiet "my-org/my-model" ModelMixin_from_pretrained
    (PyStr "/hf") (PyProxy Sample.proxy_cfg) Sample.stale_world.
Proof.
  split.
  - exact (C6_dispatch_by_url_validity Sample.quiet Sample.url ModelMixin_from_pretrained
             Sample.proxied_kwargs (PyStr "/hf") (PyStr "/cache") (PyProxy Sample.proxy_cfg)
             Sample.stale_world eq_refl eq_refl eq_refl).
  - exact (C6_dispatch_by_url_validity Sample.quiet "my-org/my-model"
             ModelMixin_from_pretrained
             Sample.proxied_kwargs (PyStr "/hf") (PyStr "/cache") (PyProxy Sample.proxy_cfg)
             Sample.stale_world eq_refl eq_refl eq_refl).
Defined.

(** C10: when one of the keys "hf_cache_dir", "external_cache_dir" or
    "proxy" is missing from the keyword arguments, the dispatcher raises
    [KeyError] for a missing key and leaves the world untouched: nothing is
    classified, inspected or requested, whatever the identifier is. *)
Theorem C10_missing_key_fails_first
    (env : Env) (u : string) (loader_fn : loader_id) (kwargs : gmap string pyval)
    (w : world) :
  (exists k, k ∈ required_keys /\ kwargs !! k = None) ->
  exists k, k ∈ required_keys /\ kwargs !! k = None /\
    check_and_download_model_by_name env u loader_fn kwargs w = (w, Raise (KeyError k)).
Proof.
  intros Hmiss. unfold check_and_download_model_by_name.
  destruct (kwargs !! "hf_cache_dir") as [v1|] eqn:H1.
  2:{ exists "hf_cache_dir". split; [unfold required_keys; now repeat constructor|].
      split; [exact H1|].
      unfold bind at 1. unfold of_outcome at 1. unfold dict_pop at 1. now rewrite H1. }
  destruct (kwargs !! "external_cache_dir") as [v2|] eqn:H2.
  2:{ exists "external_cache_dir". split; [unfold required_keys; now repeat constructor|].
      split; [exact H2|].
      unfold bind at 1. unfold of_outcome at 1. unfold dict_pop at 1. rewrite H1. cbn [snd fst].
      unfold bind at 1. unfold of_outcome at 1. unfold dict_pop at 1.
      rewrite lookup_delete_ne by discriminate. now rewrite H2. }
  destruct (kwargs !! "proxy") as [v3|] eqn:H3.
  2:{ exists "proxy". split; [unfold required_keys; now repeat constructor|].
      split; [exact H3|].
      unfold bind at 1. unfold of_outcome at 1. unfold dict_pop at 1. rewrite H1. cbn [snd fst].
      unfold bind at 1. unfold of_outcome at 1. unfold dict_pop at 1.
      rewrite lookup_delete_ne by discriminate. rewrite H2. cbn [snd fst].
      unfold bind at 1. unfold of_outcome at 1. unfold dict_pop at 1.
      rewrite !lookup_delete_ne by discriminate. now rewrite H3. }
  exfalso. destruct Hmiss as (k & Hk & Hnone). unfold required_keys in Hk.
  apply elem_of_cons in Hk as [->|Hk]; [congruence|].
  apply elem_of_cons in Hk as [->|Hk]; [congruence|].
  apply elem_of_cons in Hk as [->|Hk]; [congruence|].
  now apply elem_of_nil in Hk.
Qed.

Lemma C10_missing_key_witness :
  exists k, k ∈ required_keys /\
    ({[ "hf_cache_dir" := PyStr "/hf"; "proxy" := PyNone ]} : gmap string pyval) !! k = None /\
    check_and_download_model_by_name Sample.quiet Sample.url ModelMixin_from_pretrained
      {[ "hf_cache_dir" := PyStr "/hf"; "proxy" := PyNone ]} Sample.stale_world =
    (Sample.stale_world, Raise (KeyError k)).
Proof.
  apply C10_missing_key_fails_first.
  exists "external_cache_dir". split; [unfold required_keys; now repeat constructor | reflexivity].
Defined.

(** C7: the Named Model Fetcher calls the supplied loader exactly once,
    with [proxy] the http/https map derived from the policy (or [None]),
    [cache_dir] the HF cache directory, [torch_dtype] half precision and
    [resume_download] true; it returns the identifier unchanged when the
    loader returns, and raises the loader's own exception when it raises. *)
Theorem C7_named_fetch
    (env : Env) (name : string) (loader_fn : loader_id) (hf_cache_dir : pyval)
    (p : option ProxyConfig) (w : world) :
  let banner := EvPrint ("Check and download the Huggingface model file: " +:+ name) in
  let args := hf_call_args hf_cache_dir p in
  let result := run_loader env loader_fn name args (trace w ++ [banner]) (fs w) in
  let run := check_and_download_hf_model env name loader_fn hf_cache_dir (policy_val p) w in
  run = (World (fst result) (trace w ++ [banner; EvLoad loader_fn name args]),
         match snd result with
         | Some e => Raise e
         | None => Ok name
         end) /\
  List.filter is_load (new_events w (fst run)) = [EvLoad loader_fn name args].
Proof.
  intros banner args result run.
  assert (Hrun : run =
    (World (fst result) (trace w ++ [banner; EvLoad loader_fn name args]),
     match snd result with
     | Some e => Raise e
     | None => Ok name
     end)).
  { subst run. unfold check_and_download_hf_model.
    unfold bind at 1. unfold print at 1, emit at 1.
    unfold bind at 1. unfold of_outcome at 1. rewrite hf_proxy_dict_spec.
    fold (hf_call_args hf_cache_dir p). fold args.
    unfold bind at 1. unfold call_loader at 1. cbn [fs trace]. fold banner. fold result.
    destruct result as [m [e|]]; cbn [fst snd]; rewrite <- app_assoc; reflexivity. }
  split; [exact Hrun|].
  rewrite Hrun. cbn [fst].
  now rewrite (new_events_app w _ [banner; EvLoad loader_fn name args]).
Qed.

(** ** The Model Set Resolver *)

Section model_set.

Context (env : Env) (kwargs : gmap string pyval).

Lemma prepare_refines (s : InferenceTaskArgs * world) :
  check_and_prepare_models env kwargs s = resolve_all env kwargs slot_order s.
Proof.
  destruct s as [[bm v cn lo ti] w].
  unfold check_and_prepare_models, slot_order, resolve_all, resolve_slot.
  set (d := dispatch env). clearbody d.
  unfold bind, get_args, in_world, ret, slot_ref, slot_store, slot_loader,
    set_base_model, set_vae, set_controlnet_model, set_lora_model, set_textual_inversion.
  cbn.
  repeat (match goal with
          | |- context [d ?i ?l ?k ?x] => destruct (d i l k x) as [? [?|?]]
          | |- context [match ?o with Some _ => _ | None => _ end] => destruct o
          end; cbn); reflexivity.
Qed.

Lemma resolve_slot_Ok (s : slot) (a a' : InferenceTaskArgs) (w w' : world) :
  resolve_slot env kwargs s (a, w) = ((a', w'), Ok tt) ->
  resolved_by env kwargs s a a' /\
  (forall s', s' <> s -> slot_ref s' a' = slot_ref s' a).
Proof.
  unfold resolve_slot, resolved_by.
  unfold bind, get_args, in_world, ret, slot_store,
    set_base_model, set_vae, set_controlnet_model, set_lora_model, set_textual_inversion.
  destruct a as [bm [v|] [[cm co]|] [[lm lo]|] [ti|]]; destruct s; cbn.
  all: repeat (match goal with
               | |- context [match ?o with Some _ => _ | None => _ end] => destruct o; cbn
               end).
  all: try (match goal with
            | |- context [dispatch ?e ?i ?l ?k ?x] =>
                destruct (dispatch e i l k x)
                  as [w1 [r|e1]] eqn:E; cbn
            end).
  all: try discriminate.
  all: intros H; inversion H; subst; clear H; split.
  all: try (intros [] Hs; first [reflexivity | congruence]).
  all: try reflexivity.
  all: do 3 eexists; split; [exact E | reflexivity].
Qed.

Lemma resolve_slot_Raise (s : slot) (a a' : InferenceTaskArgs) (w w' : world) (e : exn) :
  resolve_slot env kwargs s (a, w) = ((a', w'), Raise e) ->
  a' = a /\
  exists identifier,
    slot_ref s a = Some identifier /\
    dispatch env identifier (slot_loader s) kwargs w = (w', Raise e).
Proof.
  unfold resolve_slot.
  unfold bind, get_args, in_world, ret, slot_store,
    set_base_model, set_vae, set_controlnet_model, set_lora_model, set_textual_inversion.
  destruct a as [bm [v|] [[cm co]|] [[lm lo]|] [ti|]]; destruct s; cbn.
  all: repeat (match goal with
               | |- context [match ?o with Some _ => _ | None => _ end] => destruct o; cbn
               end).
  all: try (match goal with
            | |- context [dispatch ?e ?i ?l ?k ?x] =>
                destruct (dispatch e i l k x)
                  as [w1 [r|e1]] eqn:E; cbn
            end).
  all: try discriminate.
  all: intros H; inversion H; subst; clear H; split;
    [reflexivity | eexists; split; [reflexivity | exact E]].
Qed.

Lemma resolved_by_ext (s : slot) (a1 a2 b1 b2 : InferenceTaskArgs) :
  slot_ref s a2 = slot_ref s a1 -> slot_ref s b2 = slot_ref s b1 ->
  resolved_by env kwargs s a1 b1 -> resolved_by env kwargs s a2 b2.
Proof. unfold resolved_by. now intros -> ->. Qed.

Lemma resolve_all_spec (slots : list slot) :
  NoDup slots ->
  forall a w a' w' res,
    resolve_all env kwargs slots (a, w) = ((a', w'), res) ->
    match res with
    | Ok _ =>
        (forall s, s ∈ slots -> resolved_by env kwargs s a a') /\
        (forall s, s ∉ slots -> slot_ref s a' = slot_ref s a)
    | Raise e =>
        exists pre s post identifier w1,
          slots = pre ++ s :: post /\
          (forall s', s' ∈ pre -> resolved_by env kwargs s' a a') /\
          (forall s', s' ∉ pre -> slot_ref s' a' = slot_ref s' a) /\
          slot_ref s a = Some identifier /\
          dispatch env identifier (slot_loader s) kwargs w1 = (w', Raise e)
    end.
Proof.
  induction 1 as [|s0 slots Hnotin Hnodup IH]; intros a w a' w' res.
  - intros [= <- <- <-]. split; [intros s Hs; now apply elem_of_nil in Hs | reflexivity].
  - cbn [resolve_all]. unfold bind at 1.
    destruct (resolve_slot env kwargs s0 (a, w)) as [[a1 w1] [[]|e0]] eqn:E0.
    + destruct (resolve_slot_Ok _ _ _ _ _ E0) as [Hres0 Hframe0].
      intros E. specialize (IH _ _ _ _ _ E). destruct res as [[]|e].
      * destruct IH as [Hres Hframe]. split.
        -- intros s Hs. apply elem_of_cons in Hs as [->|Hs].
           ++ apply (resolved_by_ext s0 a a a1 a'); [reflexivity | | exact Hres0].
              now apply Hframe.
           ++ apply (resolved_by_ext s a1 a a' a'); [| reflexivity | now apply Hres].
              symmetry. apply Hframe0. intros ->. contradiction.
        -- intros s Hs. apply not_elem_of_cons in Hs as [Hne Hs].
           rewrite (Hframe s Hs). now apply Hframe0.
      * destruct IH as (pre & s & post & identifier & wx & -> & Hres & Hframe & Hid & Hcall).
        exists (s0 :: pre), s, post, identifier, wx.
        assert (Hs0 : s0 ∉ pre) by (intros Hin; apply Hnotin, elem_of_app; now left).
        split; [reflexivity|]. split; [|split; [|split]].
        -- intros s' Hs'. apply elem_of_cons in Hs' as [->|Hs'].
           ++ apply (resolved_by_ext s0 a a a1 a'); [reflexivity | | exact Hres0].
              now apply Hframe.
           ++ apply (resolved_by_ext s' a1 a a' a'); [| reflexivity | now apply Hres].
              symmetry. apply Hframe0. intros ->. contradiction.
        -- intros s' Hs'. apply not_elem_of_cons in Hs' as [Hne Hs'].
           rewrite (Hframe s' Hs'). now apply Hframe0.
        -- rewrite <- Hid. symmetry. apply Hframe0. intros ->.
           apply Hnotin, elem_of_app. right. now left.
        -- exact Hcall.
    + destruct (resolve_slot_Raise _ _ _ _ _ _ E0) as [-> (identifier & Hid & Hcall)].
      intros [= <- <- <-].
      exists [], s0, slots, identifier, w.
      split; [reflexivity|]. split; [intros s' Hs'; now apply elem_of_nil in Hs'|].
      split; [reflexivity|]. split; [exact Hid | exact Hcall].
Qed.

Lemma dispatch_spec :
  if has_key "model_name" kwargs || has_key "loader_fn" kwargs then
    forall identifier loader w,
      dispatch env identifier loader kwargs w =
      (w, Raise (TypeError
                   "check_and_download_model_by_name() got multiple values for argument"))
  else
    forall identifier loader,
      dispatch env identifier loader kwargs =
      check_and_download_model_by_name env identifier loader kwargs.
Proof.
  unfold dispatch.
  destruct (has_key "model_name" kwargs || has_key "loader_fn" kwargs); reflexivity.
Qed.

Lemma slot_order_NoDup : NoDup slot_order.
Proof. unfold slot_order. repeat (constructor; [rewrite ?elem_of_cons, elem_of_nil; intuition discriminate|]). constructor. Qed.

Lemma elem_of_slot_order (s : slot) : s ∈ slot_order.
Proof. unfold slot_order. destruct s; now repeat constructor. Qed.

End model_set.

(** C9: the Model Set Resolver resolves the slots in the order base model,
    VAE, ControlNet model, LoRA model, textual inversion, with the loader
    of each slot, skipping the optional slots that are absent; the base
    slot is always resolved.  When the pass succeeds every slot holds what
    its resolution returned.  When it fails, the error is the one raised
    while resolving some slot [s]: the slots before [s] hold what their
    resolution returned and [s] and the slots after it hold what they held
    before the pass.  Resolving a slot is the call of the dispatcher with
    the keyword arguments of the pass: the dispatcher itself, unless a
    keyword argument is named like one of its two positional parameters,
    in which case every call is a [TypeError]. *)
Theorem C9_model_set_resolver
    (env : Env) (kwargs : gmap string pyval) (a : InferenceTaskArgs) (w : world) :
  let run := check_and_prepare_models env kwargs (a, w) in
  run = resolve_all env kwargs slot_order (a, w) /\
  slot_ref base_slot a = Some (base_model a) /\
  match snd run with
  | Ok _ => forall s, resolved_by env kwargs s a (fst (fst run))
  | Raise e =>
      exists pre s post identifier w1,
        slot_order = pre ++ s :: post /\
        (forall s', s' ∈ pre -> resolved_by env kwargs s' a (fst (fst run))) /\
        (forall s', s' ∈ s :: post -> slot_ref s' (fst (fst run)) = slot_ref s' a) /\
        slot_ref s a = Some identifier /\
        dispatch env identifier (slot_loader s) kwargs w1 = (snd (fst run), Raise e)
  end /\
  if has_key "model_name" kwargs || has_key "loader_fn" kwargs then
    forall identifier loader w0,
      dispatch env identifier loader kwargs w0 =
      (w0, Raise (TypeError
                    "check_and_download_model_by_name() got multiple values for argument"))
  else
    forall identifier loader,
      dispatch env identifier loader kwargs =
      check_and_download_model_by_name env identifier loader kwargs.
Proof.
  intros run. subst run. rewrite prepare_refines.
  split; [reflexivity|]. split; [reflexivity|]. split; [|apply dispatch_spec].
  destruct (resolve_all env kwargs slot_order (a, w)) as [[a' w'] res] eqn:E.
  pose proof (resolve_all_spec env kwargs slot_order slot_order_NoDup _ _ _ _ _ E) as H.
  cbn [fst snd]. destruct res as [[]|e].
  - destruct H as [Hres _]. intros s. apply Hres, elem_of_slot_order.
  - destruct H as (pre & s & post & identifier & w1 & Hsplit & Hres & Hframe & Hid & Hcall).
    exists pre, s, post, identifier, w1.
    split; [exact Hsplit|]. split; [exact Hres|]. split; [|split; [exact Hid | exact Hcall]].
    intros s' Hs'. apply Hframe. intros Hpre.
    pose proof slot_order_NoDup as Hnd. rewrite Hsplit in Hnd.
    apply NoDup_app in Hnd as (_ & Hdisj & _). exact (Hdisj s' Hpre Hs').
Qed.

(** ** The scenarios of section 8 of the specification *)

Example scenario_download_2048 :
  let run := check_and_download_external_model Sample.zeros Sample.url (PyStr "/cache")
               (PyProxy Sample.no_proxy_cfg) Sample.empty_world in
  snd run = Ok Sample.folder /\
  (match fs (fst run) !! Sample.file with
   | Some (File content) => length content
   | _ => 0%nat
   end) = 2048%nat /\
  List.filter is_request
    (new_events (fst run)
       (fst (check_and_download_external_model Sample.zeros Sample.url (PyStr "/cache")
               (PyProxy Sample.no_proxy_cfg) (fst run)))) = [].
Proof. repeat split; vm_compute; reflexivity. Qed.

Example scenario_named_model :
  let run := check_and_download_model_by_name Sample.quiet "my-org/my-model"
               ModelMixin_from_pretrained Sample.full_kwargs Sample.empty_world in
  snd run = Ok "my-org/my-model" /\
  List.filter is_load (trace (fst run)) =
  [EvLoad ModelMixin_from_pretrained "my-org/my-model" (hf_call_args (PyStr "/hf") None)].
Proof. repeat split; vm_compute; reflexivity. Qed.

Example scenario_base_only :
  let run := check_and_prepare_models Sample.quiet Sample.full_kwargs
               (Sample.base_only, Sample.empty_world) in
  snd run = Ok tt /\
  fst (fst run) = Sample.base_only /\
  length (List.filter is_load (trace (snd (fst run)))) = 1%nat.
Proof. repeat split; vm_compute; reflexivity. Qed.

Example scenario_abort_keeps_later_slots :
  let run := check_and_prepare_models Sample.broken_stream Sample.proxied_kwargs
               (Sample.task, Sample.empty_world) in
  snd run = Raise (HTTPError "connection reset") /\
  base_model (fst (fst run)) = base_model Sample.task /\
  vae (fst (fst run)) = vae Sample.task /\
  lora (fst (fst run)) = lora Sample.task /\
  List.filter is_load (trace (snd (fst run))) =
  [EvLoad ModelMixin_from_pretrained "runwayml/stable-diffusion-v1-5"
     (hf_call_args (PyStr "/hf") (Some Sample.proxy_cfg))].
Proof. repeat split; vm_compute; reflexivity. Qed.

Example scenario_resolves_url_slot :
  let run := check_and_prepare_models Sample.quiet Sample.proxied_kwargs
               (Sample.task, Sample.empty_world) in
  snd run = Ok tt /\
  vae (fst (fst run)) = Some Sample.folder /\
  lora (fst (fst run)) = lora Sample.task /\
  map (fun ev => match ev with EvLoad l _ _ => Some l | _ => None end)
      (List.filter is_load (trace (snd (fst run)))) =
  [Some ModelMixin_from_pretrained; Some LoraLoaderMixin_lora_state_dict].
Proof. repeat split; vm_compute; reflexivity. Qed.

(** ** Frames of the URL fetcher *)

Section fetcher_frames.

Context (env : Env).

Lemma os_mkdir_frame (p : string) (mode : Z) (w w' : world) (r : outcome unit) :
  os_mkdir env p mode w = (w', r) ->
  (forall q, q <> p -> fs w' !! q = fs w !! q) /\
  (exists t, trace w' = trace w ++ t /\ Forall (fun ev => is_network ev = false) t) /\
  (forall e, r = Raise e -> w' = w).
Proof.
  unfold os_mkdir. destruct (fs w !! p).
  { intros [= <- <-]. split; [reflexivity|]. split; [|reflexivity].
    exists []. split; [now rewrite app_nil_r | constructor]. }
  destruct (mkdir_fault env (trace w) p).
  { intros [= <- <-]. split; [reflexivity|]. split; [|reflexivity].
    exists []. split; [now rewrite app_nil_r | constructor]. }
  intros [= <- <-]. split; [|split].
  - intros q Hq. cbn [fs]. now rewrite lookup_insert_ne.
  - exists [EvMkdir p mode]. split; [reflexivity | now repeat constructor].
  - discriminate.
Qed.

Lemma download_section_frame (u folder : string) (proxy : pyval)
    (w w' : world) (r : outcome string) :
  download_section env u folder proxy w = (w', r) ->
  forall p, p <> posixpath.join folder "model.safetensors" -> fs w' !! p = fs w !! p.
Proof.
  rewrite download_section_unfold. intros E p Hp.
  destruct (download env u folder (posixpath.join folder "model.safetensors") proxy
              (started w)) as [w2 res] eqn:Ed.
  destruct (download_confined env u _ _ proxy _ _ _ Ed) as [_ Hframe].
  destruct res as [a|e].
  - injection E as <- <-. now rewrite Hframe.
  - rewrite (handled_frame env _ _ _ _ _ E p Hp). now rewrite Hframe.
Qed.

End fetcher_frames.

(** X2: a call of the URL fetcher changes the filesystem at the cache
    directory and at the artifact file only: every other path holds after
    the call what it held before, whatever the outcome. *)
Theorem X2_fetcher_touches_cache_location_only
    (env : Env) (u r : string) (proxy : pyval) (w : world) (p : string) :
  p <> model_folder r u -> p <> model_file r u ->
  fs (fst (check_and_download_external_model env u (PyStr r) proxy w)) !! p = fs w !! p.
Proof.
  intros Hfolder Hfile. rewrite external_unfold.
  destruct (isdir (fs w) (model_folder r u)).
  - destruct (isfile (fs w) (model_file r u)); [reflexivity|].
    destruct (download_section env u (model_folder r u) proxy (after_banner r u w))
      as [w' res] eqn:E.
    exact (download_section_frame env _ _ _ _ _ _ E p Hfile).
  - unfold bind.
    destruct (os_mkdir env (model_folder r u) 0x1ed (after_banner r u w))
      as [wm [[]|e]] eqn:Em;
      destruct (os_mkdir_frame env _ _ _ _ _ Em) as (Hm & _ & _).
    + destruct (download_section env u (model_folder r u) proxy wm) as [w' res] eqn:E.
      cbn [fst]. rewrite (download_section_frame env _ _ _ _ _ _ E p Hfile).
      now rewrite Hm.
    + cbn [fst]. now rewrite Hm.
Qed.

Lemma X2_fetcher_frame_witness :
  fs (fst (check_and_download_external_model Sample.broken_stream Sample.url (PyStr "/cache")
             (PyProxy Sample.proxy_cfg) Sample.empty_world)) !! "/cache" = Some Dir.
Proof.
  rewrite (X2_fetcher_touches_cache_location_only Sample.broken_stream Sample.url "/cache"
             (PyProxy Sample.proxy_cfg) Sample.empty_world "/cache").
  - reflexivity.
  - intros E. apply (f_equal String.length) in E. vm_compute in E. discriminate E.
  - intros E. apply (f_equal String.length) in E. vm_compute in E. discriminate E.
Defined.

(** ** Requests and repeated calls *)

Section repeated_calls.

Context (env : Env).

Lemma banner_trace (r u : string) (w : world) :
  trace (after_banner r u w) = trace w ++
    [EvPrint ("Check and download the external model file: " +:+ u);
     EvPrint ("The model file will be saved as: " +:+ model_file r u)].
Proof. unfold after_banner. cbn [trace]. now rewrite <- app_assoc. Qed.


Lemma external_Ok_cached (u r : string) (proxy : pyval) (w w' : world) (v : string) :
  check_and_download_external_model env u (PyStr r) proxy w = (w', Ok v) ->
  isdir (fs w') (model_folder r u) = true /\ isfile (fs w') (model_file r u) = true.
Proof.
  assert (Hne : model_folder r u <> model_file r u).
  { intros E. now apply (model_file_neq_folder r u). }
  rewrite external_unfold.
  destruct (isdir (fs w) (model_folder r u)) eqn:Hd.
  - destruct (isfile (fs w) (model_file r u)) eqn:Hf.
    + intros [= <- _]. now split.
    + intros E. split; [|exact (proj2 (download_section_Ok env _ _ _ _ _ _ E))].
      unfold isdir. rewrite (download_section_frame env _ _ _ _ _ _ E _ Hne). exact Hd.
  - intros E. apply bind_Ok in E as (wm & [] & Em & E).
    split; [|exact (proj2 (download_section_Ok env _ _ _ _ _ _ E))].
    unfold isdir. rewrite (download_section_frame env _ _ _ _ _ _ E _ Hne).
    exact (os_mkdir_Ok env _ _ _ _ Em).
Qed.

End repeated_calls.


(** X1: once a call of the URL fetcher has returned, the artifact file is
    in the cache, and the next call for the same identifier and cache root
    (under any environment and proxy policy) is a cache hit: it returns the
    path of the artifact file, leaves the filesystem as it is and adds
    three messages to the trace and nothing else. *)
Theorem X1_second_call_is_a_cache_hit
    (env env2 : Env) (u r : string) (proxy proxy2 : pyval) (w w' : world) (v : string) :
  check_and_download_external_model env u (PyStr r) proxy w = (w', Ok v) ->
  isfile (fs w') (model_file r u) = true /\
  check_and_download_external_model env2 u (PyStr r) proxy2 w' =
    (World (fs w')
       (trace w' ++
        [EvPrint ("Check and download the external model file: " +:+ u);
         EvPrint ("The model file will be saved as: " +:+ model_file r u);
         EvPrint "Found a local cache of the model file. Skip the download"]),
     Ok (model_file r u)).
Proof.
  intros E. destruct (external_Ok_cached env _ _ _ _ _ _ E) as [Hd Hf].
  split; [exact Hf|].
  rewrite (external_hit env2 u r proxy2 w' Hd Hf), banner_trace, <- app_assoc.
  reflexivity.
Qed.

Lemma X1_second_call_witness :
  let first := check_and_download_external_model Sample.quiet Sample.url (PyStr "/cache")
                 (PyProxy Sample.proxy_cfg) Sample.empty_world in
  snd first = Ok (model_folder "/cache" Sample.url) /\
  snd (check_and_download_external_model Sample.broken_stream Sample.url (PyStr "/cache")
         PyNone (fst first)) = Ok (model_file "/cache" Sample.url).
Proof.
  intros first.
  assert (H : first = (fst first, Ok (model_folder "/cache" Sample.url)))
    by (vm_compute; reflexivity).
  split; [now rewrite H|].
  destruct (X1_second_call_is_a_cache_hit Sample.quiet Sample.broken_stream Sample.url
              "/cache" (PyProxy Sample.proxy_cfg) PyNone Sample.empty_world (fst first)
              (model_folder "/cache" Sample.url) H) as [_ Hsecond].
  now rewrite Hsecond.
Defined.

(** ** What a download writes *)

Section download_content.

Context (env : Env).

Lemma insert_after_alter (m : gmap string node) (k : string) (f : node -> node) (v : node) :
  <[k := v]> (alter f k m) = <[k := v]> m.
Proof.
  apply map_eq. intros i. destruct (decide (i = k)) as [->|Hne].
  - now rewrite !lookup_insert_eq.
  - rewrite !lookup_insert_ne by congruence. now rewrite lookup_alter_ne by congruence.
Qed.

Lemma write_chunks_spec (file : string) (cs : list (list Z)) (c0 : list Z) (w : world) :
  fs w !! file = Some (File c0) ->
  write_chunks file cs w =
  (World (<[file := File (c0 ++ concat cs)]> (fs w))
         (trace w ++ map (EvWrite file) (written_chunks cs)),
   Ok tt).
Proof.
  revert c0 w. induction cs as [|chunk cs IH]; intros c0 w Hw.
  - cbn [write_chunks concat written_chunks List.filter map]. unfold ret.
    rewrite !app_nil_r. rewrite insert_id by exact Hw. now destruct w.
  - cbn [write_chunks]. unfold bind at 1. destruct chunk as [|b chunk].
    + unfold ret at 1. rewrite (IH c0 w Hw). reflexivity.
    + unfold file_write at 1.
      rewrite (IH (c0 ++ b :: chunk)); cbn [fs trace].
      * rewrite insert_after_alter.
        cbn [written_chunks List.filter length Nat.eqb negb map concat].
        fold (written_chunks cs).
        rewrite <- !app_assoc. cbn [app]. reflexivity.
      * rewrite lookup_alter_eq, Hw. reflexivity.
Qed.

Lemma connect_fs (c : ProxyConfig) (w wc : world) (r : outcome client) :
  connect env c w = (wc, r) -> fs wc = fs w.
Proof.
  unfold connect, bind, print, emit, ret, new_manager.
  destruct (bool_decide (host c <> "")); cbn [fs trace];
    match goal with
    | |- context [manager_fault env ?t ?cl] => destruct (manager_fault env t cl)
    end; intros [= <- _]; reflexivity.
Qed.

Lemma filter_writes (file : string) (cs : list (list Z)) :
  List.filter is_fs_write (map (EvWrite file) cs) = map (EvWrite file) cs.
Proof. induction cs as [|c cs IH]; [reflexivity|]. cbn. now rewrite IH. Qed.

Lemma receive_Ok (folder file : string) (resp : response) (w w' : world) (v : string) :
  receive env folder file resp w = (w', Ok v) ->
  v = folder /\ stream_fault resp = None /\
  fs w' = <[file := File (concat (chunks resp))]> (fs w) /\
  trace w' = trace w ++ EvOpen file :: map (EvWrite file) (written_chunks (chunks resp)).
Proof.
  unfold receive. intros E.
  apply bind_Ok in E as (w3 & tb & Eh & E).
  assert (w3 = w) as ->.
  { destruct (content_length resp) as [s|]; [|now injection Eh as <-].
    destruct (builtin_int env s); [now injection Eh as <- | discriminate]. }
  apply bind_Ok in E as (w4 & [] & Eopen & E).
  assert (w4 = World (<[file := File []]> (fs w)) (trace w ++ [EvOpen file])) as ->.
  { unfold open_wb in Eopen.
    destruct (fs w !! file) as [[|c0]|]; [discriminate | |];
      (destruct (open_fault env (trace w) file); [discriminate|]);
      now injection Eopen as <-. }
  assert (Hw : fs (World (<[file := File []]> (fs w)) (trace w ++ [EvOpen file])) !! file
               = Some (File [])) by (cbn [fs]; apply lookup_insert_eq).
  rewrite (bind_step _ _ _ _ _ (write_chunks_spec file (chunks resp) [] _ Hw)) in E.
  clear Hw.
  cbn [fs trace app] in E. rewrite insert_insert_eq in E.
  apply bind_Ok in E as (w6 & [] & Efault & E).
  destruct (stream_fault resp); [discriminate|].
  injection Efault as <-. injection E as <- <-.
  cbn [fs trace]. rewrite <- app_assoc. now repeat split.
Qed.

Lemma receive_blocked (folder file : string) (resp : response) (w : world) :
  fs w !! file = Some Dir ->
  exists e, receive env folder file resp w = (w, Raise e).
Proof.
  intros Hdir. unfold receive, bind, open_wb.
  destruct (content_length resp) as [s|].
  - destruct (builtin_int env s); unfold ret, raise; [rewrite Hdir|]; eauto.
  - unfold ret. rewrite Hdir. eauto.
Qed.

Lemma download_blocked (u folder file : string) (proxy : pyval) (w : world) :
  fs w !! file = Some Dir ->
  exists w2 e, download env u folder file proxy w = (w2, Raise e) /\ fs w2 = fs w.
Proof.
  intros Hdir. destruct proxy as [|s|c].
  - eexists _, _. split; reflexivity.
  - eexists _, _. split; reflexivity.
  - rewrite download_present. unfold bind at 1.
    destruct (connect env c w) as [wc [http|e]] eqn:Ec;
      pose proof (connect_fs _ _ _ _ Ec) as Hfs; [|eauto].
    unfold bind at 1. unfold request at 1.
    destruct (http_request env (trace wc) http "GET" u) as [e|resp]; [eauto|].
    destruct (receive_blocked folder file resp
                (World (fs wc) (trace wc ++ [EvRequest http "GET" u]))
                ltac:(cbn [fs]; now rewrite Hfs)) as [e He].
    rewrite He. eauto.
Qed.

Lemma download_section_Raise (u folder : string) (proxy : pyval) (w w' : world) (e : exn) :
  is_Exception e = true ->
  (forall t, remove_fault env t (posixpath.join folder "model.safetensors") = None) ->
  download_section env u folder proxy w = (w', Raise e) ->
  isfile (fs w') (posixpath.join folder "model.safetensors") = false.
Proof.
  intros Hexc Hrm. rewrite download_section_unfold.
  destruct (download env u folder _ proxy (started w)) as [w2 [a|e2]]; [discriminate|].
  unfold handled. destruct (is_Exception e2) eqn:He2.
  - destruct (isfile (fs w2) (posixpath.join folder "model.safetensors")) eqn:Hf.
    + rewrite Hrm. intros [= <- _]. apply cleaned_no_file.
    + intros [= <- _]. exact Hf.
  - intros [= _ <-]. congruence.
Qed.

Lemma try_entry_stale (u r : string) (w w1 : world) :
  isdir (fs w) (model_folder r u) = true ->
  try_entry env r u w = Some w1 ->
  isfile (fs w1) (model_file r u) = false.
Proof.
  intros Hd. unfold try_entry. rewrite Hd.
  destruct (isfile (fs w) (model_file r u)) eqn:Hf; [discriminate|].
  intros [= <-]. exact Hf.
Qed.

End download_content.

(** X4: when a call that reaches the [try] block returns, the policy is
    present, the request was answered without a fault, the call returns the
    cache directory, and the artifact file holds exactly the chunks of the
    response in order; the file is opened once and written once for every
    chunk that is not empty. *)
Theorem X4_download_stores_the_stream
    (env : Env) (u r : string) (proxy : pyval) (w w1 w' : world) (v : string) :
  try_entry env r u w = Some w1 ->
  check_and_download_external_model env u (PyStr r) proxy w = (w', Ok v) ->
  exists c wc resp,
    proxy = PyProxy c /\
    connect env c w1 = (wc, Ok (client_for c)) /\
    http_request env (trace wc) (client_for c) "GET" u = inr resp /\
    stream_fault resp = None /\
    v = model_folder r u /\
    fs w' = <[model_file r u := File (concat (chunks resp))]> (fs w1) /\
    List.filter is_fs_write (new_events wc w') =
      EvOpen (model_file r u) ::
      map (EvWrite (model_file r u)) (written_chunks (chunks resp)).
Proof.
  intros Hentry Hrun.
  destruct (try_entry_spec env u r proxy w w1 Hentry) as [_ Hspec].
  rewrite Hspec in Hrun. clear Hspec.
  destruct (download env u (model_folder r u) (model_file r u) proxy w1)
    as [w2 [a|e]] eqn:Ed;
    [|apply handled_Raise in Hrun as [e' He']; discriminate He'].
  injection Hrun as <- <-.
  destruct proxy as [|s|c]; [discriminate | discriminate |].
  rewrite download_present in Ed.
  apply bind_Ok in Ed as (wc & http & Ec & Ed).
  assert (http = client_for c) as -> by exact (connect_builds_client _ _ _ _ _ Ec).
  apply bind_Ok in Ed as (wr & resp & Er & Ed).
  unfold request in Er.
  destruct (http_request env (trace wc) (client_for c) "GET" u) as [e|resp'] eqn:Eh;
    [discriminate|].
  injection Er as <- <-.
  destruct (receive_Ok env _ _ _ _ _ _ Ed) as (-> & Hfault & Hfs & Htrace).
  cbn [fs trace] in Hfs, Htrace.
  exists c, wc, resp'. split; [reflexivity|]. split; [exact Ec|]. split; [exact Eh|].
  split; [exact Hfault|]. split; [reflexivity|]. split.
  - rewrite Hfs. now rewrite (connect_fs env _ _ _ _ Ec).
  - rewrite (new_events_app wc _
      ([EvRequest (client_for c) "GET" u] ++ EvOpen (model_file r u) ::
       map (EvWrite (model_file r u)) (written_chunks (chunks resp'))))
      by (rewrite Htrace, <- app_assoc; reflexivity).
    cbn [app List.filter is_fs_write]. now rewrite filter_writes.
Qed.

Lemma X4_download_witness :
  exists c wc resp,
    PyProxy Sample.proxy_cfg = PyProxy c /\
    connect Sample.quiet c
      (started (after_banner "/cache" Sample.url Sample.stale_world)) =
      (wc, Ok (client_for c)) /\
    http_request Sample.quiet (trace wc) (client_for c) "GET" Sample.url = inr resp /\
    stream_fault resp = None /\
    Sample.folder = model_folder "/cache" Sample.url /\
    fs (fst (check_and_download_external_model Sample.quiet Sample.url (PyStr "/cache")
               (PyProxy Sample.proxy_cfg) Sample.stale_world)) =
      <[model_file "/cache" Sample.url := File (concat (chunks resp))]>
        (fs (started (after_banner "/cache" Sample.url Sample.stale_world))) /\
    List.filter is_fs_write
      (new_events wc
         (fst (check_and_download_external_model Sample.quiet Sample.url (PyStr "/cache")
                 (PyProxy Sample.proxy_cfg) Sample.stale_world))) =
      EvOpen (model_file "/cache" Sample.url) ::
      map (EvWrite (model_file "/cache" Sample.url)) (written_chunks (chunks resp)).
Proof.
  apply (X4_download_stores_the_stream Sample.quiet Sample.url "/cache"
           (PyProxy Sample.proxy_cfg) Sample.stale_world).
  - vm_compute. reflexivity.
  - vm_compute. reflexivity.
Defined.

(** ** Failures before and inside the [try] block *)

(** X5: when the response carries a [content-length] header that [int]
    rejects, the [try] block raises [ValueError] after the request and
    before the file is opened, so nothing is written: the call is what the
    [except Exception] clause makes of the [ValueError] in the world after
    the request.  Unless a regular file sits at the artifact path and the
    operating system refuses its removal, that is the [ValueError] itself,
    in that world cleaned by the handler; when the cache directory was
    there before the call, the handler finds nothing to remove. *)
Theorem X5_malformed_content_length
    (env : Env) (u r : string) (c : ProxyConfig) (w w1 wc : world)
    (resp : response) (s : string) :
  try_entry env r u w = Some w1 ->
  connect env c w1 = (wc, Ok (client_for c)) ->
  http_request env (trace wc) (client_for c) "GET" u = inr resp ->
  content_length resp = Some s ->
  builtin_int env s = None ->
  let w2 := World (fs w1) (trace wc ++ [EvRequest (client_for c) "GET" u]) in
  let run := check_and_download_external_model env u (PyStr r) (PyProxy c) w in
  run = handled env (model_file r u) (ValueError s) w2 /\
  ((isfile (fs w1) (model_file r u) = true ->
    remove_fault env (trace w2) (model_file r u) = None) ->
   run = (cleaned (model_file r u) w2, Raise (ValueError s))) /\
  (isdir (fs w) (model_folder r u) = true -> run = (w2, Raise (ValueError s))).
Proof.
  intros Hentry Ec Eh Hlen Hint w2 run.
  assert (Hrun : run = handled env (model_file r u) (ValueError s) w2).
  { subst run w2.
    destruct (try_entry_spec env u r (PyProxy c) w w1 Hentry) as [_ ->].
    rewrite download_present.
    rewrite (bind_step _ _ _ _ _ Ec).
    unfold bind at 1. unfold request at 1. rewrite Eh.
    unfold receive. unfold bind at 1. rewrite Hlen, Hint. unfold raise.
    now rewrite (connect_fs env _ _ _ _ Ec). }
  split; [exact Hrun|]. split.
  - intros Hrm. rewrite Hrun. now apply handled_removed.
  - intros Hd. rewrite Hrun. apply handled_no_file.
    exact (try_entry_stale env u r w w1 Hd Hentry).
Qed.

Lemma X5_malformed_content_length_witness :
  let w1 := started (after_banner "/cache" Sample.url Sample.stale_world) in
  let wc := fst (connect Sample.bad_header Sample.proxy_cfg w1) in
  check_and_download_external_model Sample.bad_header Sample.url (PyStr "/cache")
    (PyProxy Sample.proxy_cfg) Sample.stale_world =
  (cleaned (model_file "/cache" Sample.url)
     (World (fs w1) (trace wc ++ [EvRequest (client_for Sample.proxy_cfg) "GET" Sample.url])),
   Raise (ValueError "12 bytes")).
Proof.
  intros w1 wc.
  assert (H1 : try_entry Sample.bad_header "/cache" Sample.url Sample.stale_world = Some w1)
    by (vm_compute; reflexivity).
  assert (H2 : connect Sample.bad_header Sample.proxy_cfg w1 =
               (wc, Ok (client_for Sample.proxy_cfg)))
    by (vm_compute; reflexivity).
  pose proof (X5_malformed_content_length Sample.bad_header Sample.url "/cache"
                Sample.proxy_cfg Sample.stale_world w1 wc
                {| content_length := Some "12 bytes"; chunks := [[1; 2; 3]];
                   stream_fault := None |} "12 bytes"
                H1 H2 eq_refl eq_refl eq_refl) as H.
  cbv zeta in H. destruct H as (_ & H & _).
  exact (H (fun _ => eq_refl)).
Defined.

(** X6: when the cache directory does not exist and cannot be created
    (the path is taken by something that is not a directory, or the
    operating system refuses), the call raises the error of [os.mkdir]
    right after its two messages: the filesystem is untouched and no client
    is built; a path that is taken gives [FileExistsError], and a refusal
    gives the error of the operating system. *)
Theorem X6_directory_creation_failure
    (env : Env) (u r : string) (proxy : pyval) (w : world) :
  isdir (fs w) (model_folder r u) = false ->
  is_Some (fs w !! model_folder r u) \/
  is_Some (mkdir_fault env (trace (after_banner r u w)) (model_folder r u)) ->
  exists e,
    check_and_download_external_model env u (PyStr r) proxy w =
      (after_banner r u w, Raise e) /\
    (is_Some (fs w !! model_folder r u) -> e = FileExistsError (model_folder r u)) /\
    (fs w !! model_folder r u = None ->
     mkdir_fault env (trace (after_banner r u w)) (model_folder r u) = Some e).
Proof.
  intros Hd Hfail. rewrite external_unfold, Hd. unfold bind, os_mkdir.
  change (fs (after_banner r u w)) with (fs w).
  destruct (fs w !! model_folder r u) as [n|] eqn:Hn.
  - eexists. split; [reflexivity|]. split; [reflexivity | discriminate].
  - destruct Hfail as [[n Hsome]|[e He]]; [discriminate|].
    rewrite He. exists e. split; [reflexivity|]. split; [|reflexivity].
    intros [n Hsome]. discriminate.
Qed.

Lemma X6_directory_creation_witness :
  exists e,
    check_and_download_external_model Sample.quiet Sample.url (PyStr "/cache")
      (PyProxy Sample.proxy_cfg) Sample.blocked_world =
      (after_banner "/cache" Sample.url Sample.blocked_world, Raise e) /\
    (is_Some (fs Sample.blocked_world !! model_folder "/cache" Sample.url) ->
     e = FileExistsError (model_folder "/cache" Sample.url)) /\
    (fs Sample.blocked_world !! model_folder "/cache" Sample.url = None ->
     mkdir_fault Sample.quiet (trace (after_banner "/cache" Sample.url Sample.blocked_world))
       (model_folder "/cache" Sample.url) = Some e).
Proof.
  apply X6_directory_creation_failure.
  - vm_compute. reflexivity.
  - left. exists (File [7]). vm_compute. reflexivity.
Defined.

(** X7: after a call that failed with an exception of class [Exception]
    and left the cache directory in place, under an operating system that
    does not refuse to remove the artifact file, the artifact file is not
    there; so the next call for the same identifier and cache root (under
    any environment and proxy policy) is not a cache hit and does not
    create the directory again: it is the download section of lines 92-133
    run right after the two messages, on the filesystem the failed call
    left. *)
Theorem X7_retry_after_failure
    (env env2 : Env) (u r : string) (proxy proxy2 : pyval) (w w' : world) (e : exn) :
  check_and_download_external_model env u (PyStr r) proxy w = (w', Raise e) ->
  isdir (fs w') (model_folder r u) = true ->
  is_Exception e = true ->
  (forall t, remove_fault env t (model_file r u) = None) ->
  isfile (fs w') (model_file r u) = false /\
  check_and_download_external_model env2 u (PyStr r) proxy2 w' =
    download_section env2 u (model_folder r u) proxy2 (after_banner r u w') /\
  fs (after_banner r u w') = fs w'.
Proof.
  intros Hrun Hd Hexc Hrm.
  assert (Hf : isfile (fs w') (model_file r u) = false).
  { rewrite external_unfold in Hrun.
    destruct (isdir (fs w) (model_folder r u)) eqn:Hd0.
    - destruct (isfile (fs w) (model_file r u)); [discriminate|].
      exact (download_section_Raise env _ _ _ _ _ _ Hexc Hrm Hrun).
    - apply bind_Raise in Hrun as [Em|(wm & [] & _ & Hrun)].
      + destruct (os_mkdir_frame env _ _ _ _ _ Em) as (_ & _ & Hsame).
        rewrite (Hsame e eq_refl) in Hd.
        change (fs (after_banner r u w)) with (fs w) in Hd. congruence.
      + exact (download_section_Raise env _ _ _ _ _ _ Hexc Hrm Hrun). }
  split; [exact Hf|]. split; [|reflexivity].
  exact (external_stale env2 u r proxy2 w' Hd Hf).
Qed.

Lemma X7_retry_witness :
  let failed := check_and_download_external_model Sample.broken_stream Sample.url
                  (PyStr "/cache") (PyProxy Sample.proxy_cfg) Sample.empty_world in
  let retry := check_and_download_external_model Sample.quiet Sample.url
                 (PyStr "/cache") (PyProxy Sample.no_proxy_cfg) (fst failed) in
  snd failed = Raise (HTTPError "connection reset") /\
  isfile (fs (fst failed)) (model_file "/cache" Sample.url) = false /\
  retry = download_section Sample.quiet Sample.url (model_folder "/cache" Sample.url)
            (PyProxy Sample.no_proxy_cfg) (after_banner "/cache" Sample.url (fst failed)) /\
  snd retry = Ok (model_folder "/cache" Sample.url).
Proof.
  intros failed retry.
  assert (H : failed = (fst failed, Raise (HTTPError "connection reset")))
    by (vm_compute; reflexivity).
  assert (Hd : isdir (fs (fst failed)) (model_folder "/cache" Sample.url) = true)
    by (vm_compute; reflexivity).
  destruct (X7_retry_after_failure Sample.broken_stream Sample.quiet Sample.url "/cache"
              (PyProxy Sample.proxy_cfg) (PyProxy Sample.no_proxy_cfg)
              Sample.empty_world (fst failed) (HTTPError "connection reset")
              H Hd eq_refl (fun _ => eq_refl)) as (Hf & Hretry & _).
  split; [now rewrite H|]. split; [exact Hf|]. split; [exact Hretry|].
  vm_compute. reflexivity.
Defined.

(** After an interrupt of the process the three bytes written so far are
    still at the final filename, and the next call takes them for a cached
    artifact: it returns the path of the file without any network event. *)
Example scenario_interrupted_then_hit :
  let failed := check_and_download_external_model Sample.interrupted Sample.url
                  (PyStr "/cache") (PyProxy Sample.proxy_cfg) Sample.empty_world in
  let next := check_and_download_external_model Sample.quiet Sample.url
                (PyStr "/cache") (PyProxy Sample.proxy_cfg) (fst failed) in
  snd failed = Raise KeyboardInterrupt /\
  snd next = Ok Sample.file /\
  fs (fst next) !! Sample.file = Some (File [1; 2; 3]) /\
  List.filter is_network (new_events (fst failed) (fst next)) = [].
Proof. repeat split; vm_compute; reflexivity. Qed.

(** X8: when a directory sits at the path of the artifact file, the call
    is never a cache hit and never succeeds: it raises and leaves the
    filesystem exactly as it was, the directory included. *)
Theorem X8_artifact_path_is_a_directory
    (env : Env) (u r : string) (proxy : pyval) (w : world) :
  isdir (fs w) (model_folder r u) = true ->
  fs w !! model_file r u = Some Dir ->
  (exists e, snd (check_and_download_external_model env u (PyStr r) proxy w) = Raise e) /\
  fs (fst (check_and_download_external_model env u (PyStr r) proxy w)) = fs w.
Proof.
  intros Hd Hdir.
  assert (Hf : isfile (fs w) (model_file r u) = false) by (unfold isfile; now rewrite Hdir).
  rewrite (external_stale env u r proxy w Hd Hf), download_section_unfold.
  destruct (download_blocked env u (model_folder r u)
              (posixpath.join (model_folder r u) "model.safetensors") proxy
              (started (after_banner r u w)) Hdir) as (w2 & e & -> & Hfs).
  assert (Hf2 : isfile (fs w2) (posixpath.join (model_folder r u) "model.safetensors") = false).
  { rewrite Hfs. exact Hf. }
  rewrite (handled_no_file env _ _ _ Hf2).
  cbn [fst snd]. split; [eauto | exact Hfs].
Qed.

Lemma X8_artifact_path_witness :
  (exists e, snd (check_and_download_external_model Sample.quiet Sample.url (PyStr "/cache")
                    (PyProxy Sample.proxy_cfg) Sample.occupied_world) = Raise e) /\
  fs (fst (check_and_download_external_model Sample.quiet Sample.url (PyStr "/cache")
             (PyProxy Sample.proxy_cfg) Sample.occupied_world)) = fs Sample.occupied_world.
Proof.
  apply X8_artifact_path_is_a_directory.
  - vm_compute. reflexivity.
  - vm_compute. reflexivity.
Defined.

(** ** More on the dispatcher and the Model Set Resolver *)

Section resolver_extras.

Context (env : Env) (kwargs : gmap string pyval).

Lemma dispatch_missing_key :
  (exists k, k ∈ required_keys /\ kwargs !! k = None) ->
  exists k, k ∈ required_keys /\ kwargs !! k = None /\
    forall u loader_fn w,
      check_and_download_model_by_name env u loader_fn kwargs w = (w, Raise (KeyError k)).
Proof.
  intros (k0 & Hk0 & Hnone).
  destruct (kwargs !! "hf_cache_dir") as [v1|] eqn:H1.
  2:{ exists "hf_cache_dir". split; [unfold required_keys; now repeat constructor|].
      split; [exact H1|]. intros u l w.
      unfold check_and_download_model_by_name, bind, of_outcome, dict_pop.
      now rewrite H1. }
  destruct (kwargs !! "external_cache_dir") as [v2|] eqn:H2.
  2:{ exists "external_cache_dir". split; [unfold required_keys; now repeat constructor|].
      split; [exact H2|]. intros u l w.
      unfold check_and_download_model_by_name, bind, of_outcome, dict_pop.
      rewrite H1. cbn [fst snd]. rewrite lookup_delete_ne by discriminate. now rewrite H2. }
  destruct (kwargs !! "proxy") as [v3|] eqn:H3.
  2:{ exists "proxy". split; [unfold required_keys; now repeat constructor|].
      split; [exact H3|]. intros u l w.
      unfold check_and_download_model_by_name, bind, of_outcome, dict_pop.
      rewrite H1. cbn [fst snd]. rewrite lookup_delete_ne by discriminate. rewrite H2.
      cbn [fst snd]. rewrite !lookup_delete_ne by discriminate. now rewrite H3. }
  exfalso. unfold required_keys in Hk0.
  apply elem_of_cons in Hk0 as [->|Hk0]; [congruence|].
  apply elem_of_cons in Hk0 as [->|Hk0]; [congruence|].
  apply elem_of_cons in Hk0 as [->|Hk0]; [congruence|].
  now apply elem_of_nil in Hk0.
Qed.

Lemma dispatch_named_Ok (identifier : string) (loader_fn : loader_id)
    (w w' : world) (r : string) :
  validators_url env identifier = false ->
  check_and_download_model_by_name env identifier loader_fn kwargs w = (w', Ok r) ->
  r = identifier.
Proof.
  intros Hname E. unfold check_and_download_model_by_name in E.
  apply bind_Ok in E as (w1 & p1 & _ & E).
  apply bind_Ok in E as (w2 & p2 & _ & E).
  apply bind_Ok in E as (w3 & p3 & _ & E).
  rewrite Hname in E. unfold check_and_download_hf_model in E.
  apply bind_Ok in E as (w4 & [] & _ & E).
  apply bind_Ok in E as (w5 & pd & _ & E).
  apply bind_Ok in E as (w6 & [] & _ & E).
  now injection E as _ <-.
Qed.

Lemma call_named_Ok (identifier : string) (loader_fn : loader_id)
    (w w' : world) (r : string) :
  validators_url env identifier = false ->
  dispatch env identifier loader_fn kwargs w = (w', Ok r) ->
  r = identifier.
Proof.
  intros Hname. unfold dispatch.
  destruct (has_key "model_name" kwargs || has_key "loader_fn" kwargs); [discriminate|].
  now apply dispatch_named_Ok.
Qed.

Lemma resolve_slot_named (s : slot) (a a' : InferenceTaskArgs) (w w' : world)
    (res : outcome unit) :
  (forall identifier, slot_ref s a = Some identifier ->
                      validators_url env identifier = false) ->
  resolve_slot env kwargs s (a, w) = ((a', w'), res) ->
  a' = a.
Proof.
  intros Hname. unfold resolve_slot.
  unfold bind, get_args, in_world, ret, slot_store,
    set_base_model, set_vae, set_controlnet_model, set_lora_model, set_textual_inversion.
  destruct a as [bm [v|] [[cm co]|] [[lm lo]|] [ti|]]; destruct s; cbn in *.
  all: try (intros H; inversion H; subst; reflexivity).
  all: match goal with
       | |- context [dispatch ?e ?i ?l ?k ?x] =>
           destruct (dispatch e i l k x)
             as [w1 [r|e1]] eqn:E; cbn
       end.
  all: try (intros H; inversion H; subst; reflexivity).
  all: apply call_named_Ok in E; [|now apply Hname]; subst r.
  all: intros H; inversion H; subst; reflexivity.
Qed.

Lemma resolve_all_named (slots : list slot) (a a' : InferenceTaskArgs) (w w' : world)
    (res : outcome unit) :
  (forall s identifier, slot_ref s a = Some identifier ->
                        validators_url env identifier = false) ->
  resolve_all env kwargs slots (a, w) = ((a', w'), res) ->
  a' = a.
Proof.
  intros Hname. revert w. induction slots as [|s slots IH]; intros w.
  - now intros [= <- _ _].
  - cbn [resolve_all]. unfold bind at 1.
    destruct (resolve_slot env kwargs s (a, w)) as [[a1 w1] [[]|e]] eqn:E;
      pose proof (resolve_slot_named s a a1 w w1 _ (Hname s) E) as ->.
    + apply IH.
    + now intros [= <- _ _].
Qed.

Lemma resolve_slot_shape (s : slot) (a a' : InferenceTaskArgs) (w w' : world)
    (res : outcome unit) :
  resolve_slot env kwargs s (a, w) = ((a', w'), res) ->
  task_shape a' = task_shape a.
Proof.
  unfold resolve_slot.
  unfold bind, get_args, in_world, ret, slot_store,
    set_base_model, set_vae, set_controlnet_model, set_lora_model, set_textual_inversion.
  destruct a as [bm [v|] [[cm co]|] [[lm lo]|] [ti|]]; destruct s; cbn.
  all: try (intros H; inversion H; subst; reflexivity).
  all: match goal with
       | |- context [dispatch ?e ?i ?l ?k ?x] =>
           destruct (dispatch e i l k x)
             as [w1 [r|e1]] eqn:E; cbn
       end.
  all: intros H; inversion H; subst; reflexivity.
Qed.

Lemma resolve_all_shape (slots : list slot) (a a' : InferenceTaskArgs) (w w' : world)
    (res : outcome unit) :
  resolve_all env kwargs slots (a, w) = ((a', w'), res) ->
  task_shape a' = task_shape a.
Proof.
  revert a w. induction slots as [|s slots IH]; intros a w.
  - now intros [= <- _ _].
  - cbn [resolve_all]. unfold bind at 1.
    destruct (resolve_slot env kwargs s (a, w)) as [[a1 w1] [[]|e]] eqn:E;
      pose proof (resolve_slot_shape s a a1 w w1 _ E) as Hs.
    + intros E2. rewrite <- Hs. exact (IH _ _ E2).
    + now intros [= <- _ _].
Qed.

End resolver_extras.

(** X9: the Model Set Resolver fails at its first call of the dispatcher,
    on the base model slot, with no slot changed and nothing printed,
    inspected, requested or loaded, in two cases: with [TypeError] when a
    keyword argument is named [model_name] or [loader_fn], like a
    parameter the call gives by position; and otherwise, when one of the
    three keys is missing from the keyword arguments, with [KeyError] for
    a missing key. *)
Theorem X9_resolver_missing_key
    (env : Env) (kwargs : gmap string pyval) (a : InferenceTaskArgs) (w : world) :
  let run := check_and_prepare_models env kwargs (a, w) in
  if has_key "model_name" kwargs || has_key "loader_fn" kwargs then
    run = ((a, w),
           Raise (TypeError
                    "check_and_download_model_by_name() got multiple values for argument"))
  else
    (exists k, k ∈ required_keys /\ kwargs !! k = None) ->
    exists k, k ∈ required_keys /\ kwargs !! k = None /\
      run = ((a, w), Raise (KeyError k)).
Proof.
  intros run. subst run.
  pose proof (dispatch_spec env kwargs) as Hd.
  destruct (has_key "model_name" kwargs || has_key "loader_fn" kwargs).
  - unfold check_and_prepare_models. unfold bind at 1. unfold get_args at 1.
    unfold bind at 1. unfold in_world at 1. cbn [fst snd]. now rewrite Hd.
  - intros Hmiss.
    destruct (dispatch_missing_key env kwargs Hmiss) as (k & Hk & Hnone & Hrun).
    exists k. split; [exact Hk|]. split; [exact Hnone|].
    unfold check_and_prepare_models. unfold bind at 1. unfold get_args at 1.
    unfold bind at 1. unfold in_world at 1. cbn [fst snd]. now rewrite Hd, Hrun.
Qed.

Lemma X9_resolver_missing_key_witness :
  (exists k, k ∈ required_keys /\ Sample.partial_kwargs !! k = None /\
     check_and_prepare_models Sample.quiet Sample.partial_kwargs
       (Sample.task, Sample.empty_world) =
     ((Sample.task, Sample.empty_world), Raise (KeyError k))) /\
  check_and_prepare_models Sample.quiet Sample.clashing_kwargs
    (Sample.task, Sample.empty_world) =
  ((Sample.task, Sample.empty_world),
   Raise (TypeError "check_and_download_model_by_name() got multiple values for argument")).
Proof.
  split.
  - pose proof (X9_resolver_missing_key Sample.quiet Sample.partial_kwargs
                  Sample.task Sample.empty_world) as H.
    cbv zeta in H.
    replace (has_key "model_name" Sample.partial_kwargs ||
             has_key "loader_fn" Sample.partial_kwargs) with false in H
      by (vm_compute; reflexivity).
    apply H. exists "hf_cache_dir".
    split; [unfold required_keys; now repeat constructor | reflexivity].
  - pose proof (X9_resolver_missing_key Sample.quiet Sample.clashing_kwargs
                  Sample.task Sample.empty_world) as H.
    cbv zeta in H.
    replace (has_key "model_name" Sample.clashing_kwargs ||
             has_key "loader_fn" Sample.clashing_kwargs) with true in H
      by (vm_compute; reflexivity).
    exact H.
Defined.

(** X10: when no slot of the task holds an identifier that
    [validators.url] accepts, the pass leaves the task arguments exactly
    as they were, whether it succeeds or fails: a named model resolves to
    its own name. *)
Theorem X10_named_models_resolve_to_themselves
    (env : Env) (kwargs : gmap string pyval) (a : InferenceTaskArgs) (w : world) :
  (forall s identifier, slot_ref s a = Some identifier ->
                        validators_url env identifier = false) ->
  fst (fst (check_and_prepare_models env kwargs (a, w))) = a.
Proof.
  intros Hname. rewrite prepare_refines.
  destruct (resolve_all env kwargs slot_order (a, w)) as [[a' w'] res] eqn:E.
  exact (resolve_all_named env kwargs _ _ _ _ _ _ Hname E).
Qed.

Lemma X10_named_models_witness :
  fst (fst (check_and_prepare_models Sample.broken_loader Sample.proxied_kwargs
              (Sample.base_only, Sample.empty_world))) = Sample.base_only.
Proof.
  apply X10_named_models_resolve_to_themselves.
  intros [] identifier; cbn; intros [= <-]. vm_compute. reflexivity.
Defined.

(** X11: a pass of the Model Set Resolver never adds or removes an
    optional slot and never changes a field of the ControlNet and LoRA
    wrappers other than [model], whatever the outcome. *)
Theorem X11_resolver_keeps_the_shape
    (env : Env) (kwargs : gmap string pyval) (a : InferenceTaskArgs) (w : world) :
  task_shape (fst (fst (check_and_prepare_models env kwargs (a, w)))) = task_shape a.
Proof.
  rewrite prepare_refines.
  destruct (resolve_all env kwargs slot_order (a, w)) as [[a' w'] res] eqn:E.
  exact (resolve_all_shape env kwargs _ _ _ _ _ _ E).
Qed.

(** ** Loader calls of a pass *)

Section loader_calls.

Context (env : Env) (kwargs : gmap string pyval).
Context (hf_cache_dir external_cache_dir : pyval) (p : option ProxyConfig).
Context (Hhf : kwargs !! "hf_cache_dir" = Some hf_cache_dir).
Context (Hext : kwargs !! "external_cache_dir" = Some external_cache_dir).
Context (Hproxy : kwargs !! "proxy" = Some (policy_val p)).

Lemma dispatch_present (u : string) (loader_fn : loader_id) (w : world) :
  check_and_download_model_by_name env u loader_fn kwargs w =
  if validators_url env u
  then check_and_download_external_model env u external_cache_dir (policy_val p) w
  else check_and_download_hf_model env u loader_fn hf_cache_dir (policy_val p) w.
Proof.
  unfold check_and_download_model_by_name, bind, of_outcome, dict_pop.
  rewrite Hhf. cbn [fst snd]. rewrite lookup_delete_ne by discriminate.
  rewrite Hext. cbn [fst snd]. rewrite !lookup_delete_ne by discriminate.
  rewrite Hproxy. cbn [fst snd]. destruct (validators_url env u); reflexivity.
Qed.

Lemma named_run (name : string) (loader_fn : loader_id) (w w' : world)
    (res : outcome string) :
  check_and_download_hf_model env name loader_fn hf_cache_dir (policy_val p) w = (w', res) ->
  exists t,
    trace w' = trace w ++ t /\
    List.filter is_load t = [EvLoad loader_fn name (hf_call_args hf_cache_dir p)].
Proof.
  unfold check_and_download_hf_model.
  unfold bind at 1. unfold print at 1, emit at 1.
  unfold bind at 1. unfold of_outcome at 1. rewrite hf_proxy_dict_spec.
  fold (hf_call_args hf_cache_dir p).
  unfold bind at 1. unfold call_loader at 1. cbn [fs trace].
  destruct (run_loader env loader_fn name (hf_call_args hf_cache_dir p) _ (fs w))
    as [m [e|]]; intros [= <- _]; cbn [trace];
    (eexists; rewrite <- app_assoc; split; reflexivity).
Qed.

Lemma expected_loads_cons (a : InferenceTaskArgs) (s : slot) (slots : list slot) :
  expected_loads hf_cache_dir p a (s :: slots) =
  expected_loads hf_cache_dir p a [s] ++ expected_loads hf_cache_dir p a slots.
Proof. cbn [expected_loads]. destruct (slot_ref s a); reflexivity. Qed.

Lemma resolve_slot_loads (s : slot) (a a' : InferenceTaskArgs) (w w' : world)
    (res : outcome unit) :
  (forall identifier, slot_ref s a = Some identifier ->
                      validators_url env identifier = false) ->
  resolve_slot env kwargs s (a, w) = ((a', w'), res) ->
  exists t rest,
    trace w' = trace w ++ t /\
    expected_loads hf_cache_dir p a [s] = List.filter is_load t ++ rest /\
    (res = Ok tt -> rest = []).
Proof.
  intros Hname. unfold resolve_slot. unfold bind at 1. unfold get_args at 1.
  cbn [fst expected_loads].
  destruct (slot_ref s a) as [identifier|] eqn:Hs.
  - unfold bind at 1. unfold in_world at 1. cbn [fst snd]. unfold dispatch.
    destruct (has_key "model_name" kwargs || has_key "loader_fn" kwargs).
    { intros [= _ <- <-]. eexists [], _. rewrite app_nil_r.
      split; [reflexivity|]. split; [reflexivity | discriminate]. }
    rewrite dispatch_present, (Hname identifier eq_refl).
    destruct (check_and_download_hf_model env identifier (slot_loader s) hf_cache_dir
                (policy_val p) w) as [w1 r] eqn:E.
    destruct (named_run _ _ _ _ _ E) as (t & T & F).
    assert (Hstore : forall r0 (x : InferenceTaskArgs * world) res0,
              slot_store s r0 (a, w1) = (x, res0) -> snd x = w1).
    { intros r0 x res0. destruct s; unfold slot_store, set_base_model, set_vae,
        set_controlnet_model, set_lora_model, set_textual_inversion; cbn [fst snd];
        repeat (match goal with
                | |- context [match ?o with Some _ => _ | None => _ end] => destruct o
                end); intros [= <- _]; reflexivity. }
    destruct r as [r|e].
    + intros E2. apply Hstore in E2. cbn [snd] in E2. subst w'.
      exists t, []. rewrite app_nil_r.
      split; [exact T|]. split; [now rewrite F | now intros].
    + intros [= _ <- <-]. exists t, []. rewrite app_nil_r.
      split; [exact T|]. split; [now rewrite F | now intros].
  - intros [= _ <- _]. exists [], []. split; [now rewrite app_nil_r | now split].
Qed.

Lemma resolve_all_loads (slots : list slot) (a a' : InferenceTaskArgs) (w w' : world)
    (res : outcome unit) :
  (forall s identifier, slot_ref s a = Some identifier ->
                        validators_url env identifier = false) ->
  resolve_all env kwargs slots (a, w) = ((a', w'), res) ->
  exists t rest,
    trace w' = trace w ++ t /\
    expected_loads hf_cache_dir p a slots = List.filter is_load t ++ rest /\
    (res = Ok tt -> rest = []).
Proof.
  intros Hname. revert w. induction slots as [|s slots IH]; intros w.
  - intros [= _ <- <-]. exists [], []. split; [now rewrite app_nil_r | now split].
  - cbn [resolve_all]. unfold bind at 1. rewrite expected_loads_cons.
    destruct (resolve_slot env kwargs s (a, w)) as [[a1 w1] [[]|e]] eqn:E;
      pose proof (resolve_slot_named env kwargs s a a1 w w1 _ (Hname s) E) as ->;
      destruct (resolve_slot_loads s a a w w1 _ (Hname s) E) as (t1 & rest1 & T1 & F1 & Hok1).
    + intros E2. destruct (IH _ E2) as (t2 & rest & T2 & F2 & Hok).
      exists (t1 ++ t2), rest. split; [now rewrite T2, T1, app_assoc|].
      split; [|exact Hok].
      rewrite F1, (Hok1 eq_refl), app_nil_r, F2, List.filter_app, <- app_assoc.
      reflexivity.
    + intros [= _ <- <-].
      exists t1, (rest1 ++ expected_loads hf_cache_dir p a slots).
      split; [exact T1|]. split; [|discriminate].
      now rewrite F1, <- app_assoc.
Qed.

End loader_calls.

(** X12: for a task whose slots hold names only, with the three keyword
    arguments present, a pass calls the loader of each present slot once,
    in the order base model, VAE, ControlNet, LoRA, textual inversion, each
    with the same keyword arguments; when the pass fails, the calls made
    are an initial part of that list. *)
Theorem X12_one_loader_call_per_present_slot
    (env : Env) (kwargs : gmap string pyval) (hf_cache_dir external_cache_dir : pyval)
    (p : option ProxyConfig) (a : InferenceTaskArgs) (w : world) :
  kwargs !! "hf_cache_dir" = Some hf_cache_dir ->
  kwargs !! "external_cache_dir" = Some external_cache_dir ->
  kwargs !! "proxy" = Some (policy_val p) ->
  (forall s identifier, slot_ref s a = Some identifier ->
                        validators_url env identifier = false) ->
  let run := check_and_prepare_models env kwargs (a, w) in
  exists rest,
    expected_loads hf_cache_dir p a slot_order =
      List.filter is_load (new_events w (snd (fst run))) ++ rest /\
    (snd run = Ok tt -> rest = []).
Proof.
  intros Hhf Hext Hproxy Hname run. subst run. rewrite prepare_refines.
  destruct (resolve_all env kwargs slot_order (a, w)) as [[a' w'] res] eqn:E.
  destruct (resolve_all_loads env kwargs hf_cache_dir external_cache_dir p Hhf Hext Hproxy
              _ _ _ _ _ _ Hname E) as (t & rest & T & F & Hok).
  exists rest. cbn [fst snd]. rewrite (new_events_app w w' t T). now split.
Qed.

Lemma X12_loader_calls_witness :
  exists rest,
    expected_loads (PyStr "/hf") (Some Sample.proxy_cfg) Sample.base_only slot_order =
      List.filter is_load
        (new_events Sample.empty_world
           (snd (fst (check_and_prepare_models Sample.quiet Sample.proxied_kwargs
                        (Sample.base_only, Sample.empty_world))))) ++ rest /\
    (snd (check_and_prepare_models Sample.quiet Sample.proxied_kwargs
            (Sample.base_only, Sample.empty_world)) = Ok tt -> rest = []).
Proof.
  apply (X12_one_loader_call_per_present_slot Sample.quiet Sample.proxied_kwargs
           (PyStr "/hf") (PyStr "/cache") (Some Sample.proxy_cfg)).
  - reflexivity.
  - reflexivity.
  - reflexivity.
  - intros [] identifier; cbn; intros [= <-]. vm_compute. reflexivity.
Defined.

(** X13: the dispatcher reads the three keys it pops and nothing else:
    two keyword-argument bags that agree on "hf_cache_dir",
    "external_cache_dir" and "proxy" give the same run, so further keyword
    arguments are ignored. *)
Theorem X13_other_keyword_arguments_are_ignored
    (env : Env) (u : string) (loader_fn : loader_id)
    (kwargs1 kwargs2 : gmap string pyval) (w : world) :
  (forall k, k ∈ required_keys -> kwargs1 !! k = kwargs2 !! k) ->
  check_and_download_model_by_name env u loader_fn kwargs1 w =
  check_and_download_model_by_name env u loader_fn kwargs2 w.
Proof.
  intros Hagree.
  assert (H1 : kwargs1 !! "hf_cache_dir" = kwargs2 !! "hf_cache_dir")
    by (apply Hagree; unfold required_keys; now repeat constructor).
  assert (H2 : kwargs1 !! "external_cache_dir" = kwargs2 !! "external_cache_dir")
    by (apply Hagree; unfold required_keys; now repeat constructor).
  assert (H3 : kwargs1 !! "proxy" = kwargs2 !! "proxy")
    by (apply Hagree; unfold required_keys; now repeat constructor).
  unfold check_and_download_model_by_name, bind, of_outcome, dict_pop.
  rewrite H1. destruct (kwargs2 !! "hf_cache_dir"); [|reflexivity]. cbn [fst snd].
  rewrite !(lookup_delete_ne _ "hf_cache_dir" "external_cache_dir") by discriminate.
  rewrite H2. destruct (kwargs2 !! "external_cache_dir"); [|reflexivity]. cbn [fst snd].
  rewrite !lookup_delete_ne by discriminate.
  rewrite H3. destruct (kwargs2 !! "proxy"); reflexivity.
Qed.

Lemma X13_other_keyword_arguments_witness :
  check_and_download_model_by_name Sample.quiet "my-org/my-model" ModelMixin_from_pretrained
    (<["variant" := PyStr "fp16"]> Sample.full_kwargs) Sample.empty_world =
  check_and_download_model_by_name Sample.quiet "my-org/my-model" ModelMixin_from_pretrained
    Sample.full_kwargs Sample.empty_world.
Proof.
  apply X13_other_keyword_arguments_are_ignored.
  intros k Hk. apply lookup_insert_ne. intros <-.
  unfold required_keys in Hk.
  apply elem_of_cons in Hk as [Hk|Hk]; [discriminate|].
  apply elem_of_cons in Hk as [Hk|Hk]; [discriminate|].
  apply elem_of_cons in Hk as [Hk|Hk]; [discriminate|].
  now apply elem_of_nil in Hk.
Defined.
